(** * Client-side data caches of the business-brain frontend

    A shallow embedding of the two caching contexts of the application,
    [src/contexts/DataContext.tsx] (documents and conversations, a reducer
    store with a time-based staleness gate) and the Gmail context (emails,
    plain [useState] cells), together with the small part of
    [src/lib/api.ts] and [src/contexts/AuthContext.tsx] that reacts to an
    HTTP 401.

    Conventions.
    - JavaScript numbers that hold counts are [nat]; clock readings
      ([Date.now()], milliseconds) and counters that are decremented are [Z].
    - [T | null] and optional fields are [option T].
    - [Date.now()] is an explicit argument of every function that reads the
      clock.
    - A React component function closes over the [state] value of the render
      that created it; the functions below therefore take that value as the
      argument [state], and what they dispatch is returned as a trace. *)

From Stdlib Require Import ZArith Lia.
From stdpp Require Import base option list strings gmap.

Local Open Scope string_scope.
Local Open Scope Z_scope.
Local Open Scope nat_scope.
Local Open Scope list_scope.

(** ** JavaScript values of untyped ([any]) data *)

Module Js.

Inductive value : Type :=
| undefined
| null
| boolean (b : bool)
| number (n : Z)
| str (s : string).

#[global] Instance value_eq_dec : EqDecision value.
Proof. solve_decision. Defined.

(** ToBoolean. *)
Definition truthy (v : value) : bool :=
  match v with
  | undefined | null => false
  | boolean b => b
  | number n => negb (n =? 0)%Z
  | str s => negb (String.eqb s "")
  end.

(** An object literal: own properties by name. *)
Abbreviation object := (gmap string value).

(** [o.k]: a missing property reads as [undefined]. *)
Definition get (o : object) (k : string) : value :=
  default undefined (o !! k).

(** [{ ...a, ...b }]: the properties of [b] win. *)
Definition spread (a b : object) : object := b ∪ a.

(** Truthiness of a [number | null] cell ([!x] is its negation). *)
Definition truthy_number (x : option Z) : bool :=
  match x with
  | None => false
  | Some n => negb (n =? 0)%Z
  end.

(** [s || d] for an optional string [s]. *)
Definition or_string (s : option string) (d : string) : string :=
  match s with
  | Some x => if String.eqb x "" then d else x
  | None => d
  end.

(** [s || null] for an optional string [s]. *)
Definition or_null (s : option string) : option string :=
  match s with
  | Some x => if String.eqb x "" then None else Some x
  | None => None
  end.

End Js.

(** ** Entities ([src/services/documentService.ts], conversationService) *)

Module Document.

(** [document_type: 'pdf' | 'note' | 'audio'] *)
Inductive document_type_t : Type := pdf | note | audio.

#[global] Instance document_type_eq_dec : EqDecision document_type_t.
Proof. solve_decision. Defined.

(** The required fields of [interface Document]; its optional attributes
    (file name, OCR text, metadata, processing flags) are read by no
    function of the cache and are left out. *)
Record t : Type := mk {
  id : string;
  user_id : string;
  title : string;
  document_type : document_type_t;
  created_at : string;
  updated_at : string
}.

#[global] Instance eq_dec : EqDecision t.
Proof. solve_decision. Defined.

End Document.

Module Conversation.

Record t : Type := mk {
  id : string;
  user_id : string;
  title : string;
  created_at : string;
  updated_at : string;
  message_count : nat;
  last_message : option string;
  last_message_at : option string
}.

#[global] Instance eq_dec : EqDecision t.
Proof. solve_decision. Defined.

End Conversation.

(** ** Results of the service calls *)

Module Service.

(** [interface ApiResponse<T> { success; data?; error? }] *)
Record ApiResponse (T : Type) : Type := mkResponse {
  success : bool;
  data : option T;
  error : option string
}.
Arguments mkResponse {T}.
Arguments success {T}.
Arguments data {T}.
Arguments error {T}.

(** How an awaited promise settles: with a value, or rejected with an
    [Error] whose [message] is given. *)
Inductive settled (T : Type) : Type :=
| resolved (result : T)
| rejected (message : string).
Arguments resolved {T}.
Arguments rejected {T}.

(** Payload of [documentService.getAllItemsByType]. *)
Record ItemsByType : Type := mkItems {
  documents : list Document.t;
  notes : list Document.t;
  audio : list Document.t
}.

(** Payload of [conversationService.getConversations]. *)
Record ConversationListResponse : Type := mkConversationList {
  conversations : list Conversation.t
}.

End Service.

(** ** DataContext: the reducer store *)

Module DataContext.

Record Stats : Type := mkStats {
  totalDocuments : nat;
  totalNotes : nat;
  totalAudio : nat;
  totalItems : nat;
  totalConversations : nat
}.

Record DataState : Type := mkDataState {
  documents : list Document.t;
  conversations : list Conversation.t;
  documentsLoading : bool;
  conversationsLoading : bool;
  documentsLastFetch : option Z;
  conversationsLastFetch : option Z;
  documentsError : option string;
  conversationsError : option string;
  stats : Stats;
  hasInitializedDocuments : bool;
  hasInitializedConversations : bool
}.

Inductive DataAction : Type :=
| DOCUMENTS_LOADING_START
| DOCUMENTS_LOADING_SUCCESS (payload : list Document.t)
| DOCUMENTS_LOADING_FAILURE (payload : string)
| CONVERSATIONS_LOADING_START
| CONVERSATIONS_LOADING_SUCCESS (payload : list Conversation.t)
| CONVERSATIONS_LOADING_FAILURE (payload : string)
| ADD_DOCUMENT (payload : Document.t)
| UPDATE_DOCUMENT (payload : Document.t)
| DELETE_DOCUMENT (payload : string)
| ADD_CONVERSATION (payload : Conversation.t)
| UPDATE_CONVERSATION (payload : Conversation.t)
| DELETE_CONVERSATION (payload : string)
| FORCE_REFRESH_DOCUMENTS
| FORCE_REFRESH_CONVERSATIONS.

(** [{ ...state, field: v }], one setter per field that the reducer
    overrides. *)
Section Setters.
Variable s : DataState.

Definition with_documents v :=
  mkDataState v s.(conversations) s.(documentsLoading)
    s.(conversationsLoading) s.(documentsLastFetch)
    s.(conversationsLastFetch) s.(documentsError) s.(conversationsError)
    s.(stats) s.(hasInitializedDocuments) s.(hasInitializedConversations).
Definition with_conversations v :=
  mkDataState s.(documents) v s.(documentsLoading)
    s.(conversationsLoading) s.(documentsLastFetch)
    s.(conversationsLastFetch) s.(documentsError) s.(conversationsError)
    s.(stats) s.(hasInitializedDocuments) s.(hasInitializedConversations).
Definition with_documentsLoading v :=
  mkDataState s.(documents) s.(conversations) v
    s.(conversationsLoading) s.(documentsLastFetch)
    s.(conversationsLastFetch) s.(documentsError) s.(conversationsError)
    s.(stats) s.(hasInitializedDocuments) s.(hasInitializedConversations).
Definition with_conversationsLoading v :=
  mkDataState s.(documents) s.(conversations) s.(documentsLoading)
    v s.(documentsLastFetch)
    s.(conversationsLastFetch) s.(documentsError) s.(conversationsError)
    s.(stats) s.(hasInitializedDocuments) s.(hasInitializedConversations).
Definition with_documentsLastFetch v :=
  mkDataState s.(documents) s.(conversations) s.(documentsLoading)
    s.(conversationsLoading) v
    s.(conversationsLastFetch) s.(documentsError) s.(conversationsError)
    s.(stats) s.(hasInitializedDocuments) s.(hasInitializedConversations).
Definition with_conversationsLastFetch v :=
  mkDataState s.(documents) s.(conversations) s.(documentsLoading)
    s.(conversationsLoading) s.(documentsLastFetch)
    v s.(documentsError) s.(conversationsError)
    s.(stats) s.(hasInitializedDocuments) s.(hasInitializedConversations).
Definition with_documentsError v :=
  mkDataState s.(documents) s.(conversations) s.(documentsLoading)
    s.(conversationsLoading) s.(documentsLastFetch)
    s.(conversationsLastFetch) v s.(conversationsError)
    s.(stats) s.(hasInitializedDocuments) s.(hasInitializedConversations).
Definition with_conversationsError v :=
  mkDataState s.(documents) s.(conversations) s.(documentsLoading)
    s.(conversationsLoading) s.(documentsLastFetch)
    s.(conversationsLastFetch) s.(documentsError) v
    s.(stats) s.(hasInitializedDocuments) s.(hasInitializedConversations).
Definition with_stats v :=
  mkDataState s.(documents) s.(conversations) s.(documentsLoading)
    s.(conversationsLoading) s.(documentsLastFetch)
    s.(conversationsLastFetch) s.(documentsError) s.(conversationsError)
    v s.(hasInitializedDocuments) s.(hasInitializedConversations).
Definition with_hasInitializedDocuments v :=
  mkDataState s.(documents) s.(conversations) s.(documentsLoading)
    s.(conversationsLoading) s.(documentsLastFetch)
    s.(conversationsLastFetch) s.(documentsError) s.(conversationsError)
    s.(stats) v s.(hasInitializedConversations).
Definition with_hasInitializedConversations v :=
  mkDataState s.(documents) s.(conversations) s.(documentsLoading)
    s.(conversationsLoading) s.(documentsLastFetch)
    s.(conversationsLastFetch) s.(documentsError) s.(conversationsError)
    s.(stats) s.(hasInitializedDocuments) v.
End Setters.

(** [state <| f := v |> <| g := w |>]: the overrides of an object
    spread, applied left to right. *)
Notation "s <| f := v |>" := (f s v)
  (at level 1, left associativity, f at level 0, only parsing).

(** Cache duration in milliseconds (3 minutes). *)
Definition CACHE_DURATION : Z := 3 * 60 * 1000.

(** [documents.filter(d => d.document_type === ty).length] *)
Definition count_of_type (ty : Document.document_type_t)
    (docs : list Document.t) : nat :=
  length (filter (λ d, Document.document_type d = ty) docs).

Definition calculateStats (docs : list Document.t)
    (conversationCount : nat) : Stats :=
  let totalDocuments := count_of_type Document.pdf docs in
  let totalNotes := count_of_type Document.note docs in
  let totalAudio := count_of_type Document.audio docs in
  {| totalDocuments := totalDocuments;
     totalNotes := totalNotes;
     totalAudio := totalAudio;
     totalItems := length docs;
     totalConversations := conversationCount |}.

(** The reducer.  [now] is what [Date.now()] returns while it runs. *)
Definition dataReducer (now : Z) (state : DataState) (action : DataAction)
    : DataState :=
  match action with
  | DOCUMENTS_LOADING_START =>
      state <| with_documentsLoading := true |>
            <| with_documentsError := None |>
  | DOCUMENTS_LOADING_SUCCESS payload =>
      state <| with_documents := payload |>
            <| with_documentsLoading := false |>
            <| with_documentsError := None |>
            <| with_documentsLastFetch := (Some now) |>
            <| with_hasInitializedDocuments := true |>
            <| with_stats :=
              (calculateStats payload state.(stats).(totalConversations)) |>
  | DOCUMENTS_LOADING_FAILURE payload =>
      state <| with_documentsLoading := false |>
            <| with_documentsError := (Some payload) |>
            <| with_hasInitializedDocuments := true |>
  | CONVERSATIONS_LOADING_START =>
      state <| with_conversationsLoading := true |>
            <| with_conversationsError := None |>
  | CONVERSATIONS_LOADING_SUCCESS payload =>
      state <| with_conversations := payload |>
            <| with_conversationsLoading := false |>
            <| with_conversationsError := None |>
            <| with_conversationsLastFetch := (Some now) |>
            <| with_hasInitializedConversations := true |>
            <| with_stats :=
              (calculateStats state.(documents) (length payload)) |>
  | CONVERSATIONS_LOADING_FAILURE payload =>
      state <| with_conversationsLoading := false |>
            <| with_conversationsError := (Some payload) |>
            <| with_hasInitializedConversations := true |>
  | ADD_DOCUMENT payload =>
      let newDocuments := state.(documents) ++ [payload] in
      state <| with_documents := newDocuments |>
            <| with_stats :=
              (calculateStats newDocuments
                 state.(stats).(totalConversations)) |>
  | UPDATE_DOCUMENT payload =>
      let updatedDocuments :=
        map (λ doc,
               if decide (Document.id doc = Document.id payload)
               then payload else doc)
            state.(documents) in
      state <| with_documents := updatedDocuments |>
            <| with_stats :=
              (calculateStats updatedDocuments
                 state.(stats).(totalConversations)) |>
  | DELETE_DOCUMENT payload =>
      let filteredDocuments :=
        filter (λ doc, Document.id doc ≠ payload) state.(documents) in
      state <| with_documents := filteredDocuments |>
            <| with_stats :=
              (calculateStats filteredDocuments
                 state.(stats).(totalConversations)) |>
  | ADD_CONVERSATION payload =>
      let newConversations := payload :: state.(conversations) in
      state <| with_conversations := newConversations |>
            <| with_stats :=
              (calculateStats state.(documents) (length newConversations)) |>
  | UPDATE_CONVERSATION payload =>
      state <| with_conversations :=
        (map (λ conv,
                if decide (Conversation.id conv = Conversation.id payload)
                then payload else conv)
             state.(conversations)) |>
  | DELETE_CONVERSATION payload =>
      let filteredConversations :=
        filter (λ conv, Conversation.id conv ≠ payload)
               state.(conversations) in
      state <| with_conversations := filteredConversations |>
            <| with_stats :=
              (calculateStats state.(documents)
                 (length filteredConversations)) |>
  | FORCE_REFRESH_DOCUMENTS =>
      state <| with_documentsLastFetch := None |>
  | FORCE_REFRESH_CONVERSATIONS =>
      state <| with_conversationsLastFetch := None |>
  end.

Definition initialState : DataState :=
  {| documents := [];
     conversations := [];
     documentsLoading := false;
     conversationsLoading := false;
     documentsLastFetch := None;
     conversationsLastFetch := None;
     documentsError := None;
     conversationsError := None;
     hasInitializedDocuments := false;
     hasInitializedConversations := false;
     stats := {| totalDocuments := 0; totalNotes := 0; totalAudio := 0;
                 totalItems := 0; totalConversations := 0 |} |}.

(** *** The provider's functions *)

(** [type: 'documents' | 'conversations'] *)
Inductive CollectionName : Type := Documents | Conversations.

#[global] Instance CollectionName_eq_dec : EqDecision CollectionName.
Proof. solve_decision. Defined.

(** Check if data is stale (older than cache duration).  [state] is the
    value bound by the render, [now] the reading of [Date.now()]. *)
Definition isStale (now : Z) (state : DataState) (type : CollectionName)
    : bool :=
  let lastFetch :=
    match type with
    | Documents => state.(documentsLastFetch)
    | Conversations => state.(conversationsLastFetch)
    end in
  if negb (Js.truthy_number lastFetch) then true
  else (now - default 0%Z lastFetch >? CACHE_DURATION)%Z.

(** What a call of a load function does to the outside, in order. *)
Inductive LogLine : Type :=
| UsingCached
| LoadingFirstTime
| BackgroundRefresh
| LoadedSuccessfully (items : nat)
| LoadingFailed (message : string).

Inductive Effect : Type :=
| Log (c : CollectionName) (line : LogLine)
| Dispatch (action : DataAction)
| CallFetcher (c : CollectionName).

(** An [async] load function runs synchronously up to its [await]: it
    either returns before it, or is left waiting for the Fetcher. *)
Inductive Started : Type :=
| Returned (trace : list Effect)
| Awaiting (trace : list Effect).

Definition loadDocuments_begin (now : Z) (state : DataState) (force : bool)
    : Started :=
  if state.(documentsLoading) then Returned []
  else if negb force && negb (isStale now state Documents)
          && (0 <? length state.(documents))
  then Returned [Log Documents UsingCached]
  else
    Awaiting
      [ Log Documents
          (if negb state.(hasInitializedDocuments)
              || (length state.(documents) =? 0)
           then LoadingFirstTime else BackgroundRefresh);
        Dispatch DOCUMENTS_LOADING_START;
        CallFetcher Documents ].

(** The [catch] branch shared by both load functions. *)
Definition failed (c : CollectionName) (failure : DataAction)
    (message : string) : list Effect :=
  [ Log c (LoadingFailed message); Dispatch failure ].

(** After the [await]: [result] is how
    [documentService.getAllItemsByType()] settled. *)
Definition loadDocuments_resume
    (result : Service.settled (Service.ApiResponse Service.ItemsByType))
    : list Effect :=
  match result with
  | Service.resolved result =>
      match (if Service.success result then Service.data result
             else None) with
      | Some data =>
          let allItems :=
            Service.documents data ++ Service.notes data
              ++ Service.audio data in
          [ Dispatch (DOCUMENTS_LOADING_SUCCESS allItems);
            Log Documents (LoadedSuccessfully (length allItems)) ]
      | None =>
          let message :=
            Js.or_string (Service.error result)
              "Failed to load documents" in
          failed Documents (DOCUMENTS_LOADING_FAILURE message) message
      end
  | Service.rejected message =>
      failed Documents (DOCUMENTS_LOADING_FAILURE message) message
  end.

Definition loadDocuments (now : Z) (state : DataState) (force : bool)
    (result : Service.settled (Service.ApiResponse Service.ItemsByType))
    : list Effect :=
  match loadDocuments_begin now state force with
  | Returned trace => trace
  | Awaiting trace => trace ++ loadDocuments_resume result
  end.

Definition loadConversations_begin (now : Z) (state : DataState)
    (force : bool) : Started :=
  if state.(conversationsLoading) then Returned []
  else if negb force && negb (isStale now state Conversations)
          && (0 <? length state.(conversations))
  then Returned [Log Conversations UsingCached]
  else
    Awaiting
      [ Log Conversations
          (if negb state.(hasInitializedConversations)
              || (length state.(conversations) =? 0)
           then LoadingFirstTime else BackgroundRefresh);
        Dispatch CONVERSATIONS_LOADING_START;
        CallFetcher Conversations ].

Definition loadConversations_resume
    (result : Service.settled
                (Service.ApiResponse Service.ConversationListResponse))
    : list Effect :=
  match result with
  | Service.resolved result =>
      match (if Service.success result then Service.data result
             else None) with
      | Some data =>
          [ Dispatch
              (CONVERSATIONS_LOADING_SUCCESS (Service.conversations data));
            Log Conversations
              (LoadedSuccessfully (length (Service.conversations data))) ]
      | None =>
          let message :=
            Js.or_string (Service.error result)
              "Failed to load conversations" in
          failed Conversations (CONVERSATIONS_LOADING_FAILURE message)
            message
      end
  | Service.rejected message =>
      failed Conversations (CONVERSATIONS_LOADING_FAILURE message) message
  end.

Definition loadConversations (now : Z) (state : DataState) (force : bool)
    (result : Service.settled
                (Service.ApiResponse Service.ConversationListResponse))
    : list Effect :=
  match loadConversations_begin now state force with
  | Returned trace => trace
  | Awaiting trace => trace ++ loadConversations_resume result
  end.

(** Document and conversation management methods. *)
Definition addDocument (document : Document.t) : list Effect :=
  [Dispatch (ADD_DOCUMENT document)].
Definition updateDocument (document : Document.t) : list Effect :=
  [Dispatch (UPDATE_DOCUMENT document)].
Definition deleteDocument (documentId : string) : list Effect :=
  [Dispatch (DELETE_DOCUMENT documentId)].
Definition addConversation (conversation : Conversation.t) : list Effect :=
  [Dispatch (ADD_CONVERSATION conversation)].
Definition updateConversation (conversation : Conversation.t)
    : list Effect :=
  [Dispatch (UPDATE_CONVERSATION conversation)].
Definition deleteConversation (conversationId : string) : list Effect :=
  [Dispatch (DELETE_CONVERSATION conversationId)].

(** *** Reading a trace *)

(** The actions a trace hands to [dispatch], in order. *)
Fixpoint dispatched (trace : list Effect) : list DataAction :=
  match trace with
  | [] => []
  | Dispatch action :: rest => action :: dispatched rest
  | _ :: rest => dispatched rest
  end.

(** How often a trace invokes the Fetcher of collection [c]. *)
Fixpoint fetcherCalls (c : CollectionName) (trace : list Effect) : nat :=
  match trace with
  | [] => 0
  | CallFetcher c' :: rest =>
      (if decide (c' = c) then 1 else 0) + fetcherCalls c rest
  | _ :: rest => fetcherCalls c rest
  end.

(** [useReducer]: the store after the given actions went through the
    reducer, the clock reading [now] throughout. *)
Definition reduce (now : Z) (actions : list DataAction) (store : DataState)
    : DataState :=
  foldl (dataReducer now) store actions.

(** The store after a whole trace. *)
Definition after (now : Z) (trace : list Effect) (store : DataState)
    : DataState :=
  reduce now (dispatched trace) store.

(** *** The mounted provider

    [useReducer] keeps the current state; each render binds it to the
    constant [state] that the functions created by that render read.  A
    dispatch changes the store at once and the bound value only with the
    next render.  The number of Fetcher invocations that have not yet
    settled is tracked per collection. *)
Record Provider : Type := mkProvider {
  rendered : DataState;
  store : DataState;
  documentsInFlight : nat;
  conversationsInFlight : nat
}.

Definition mount : Provider :=
  {| rendered := initialState; store := initialState;
     documentsInFlight := 0; conversationsInFlight := 0 |}.

(** The management methods handed to the consumers. *)
Inductive Method : Type :=
| AddDocument (document : Document.t)
| UpdateDocument (document : Document.t)
| DeleteDocument (documentId : string)
| AddConversation (conversation : Conversation.t)
| UpdateConversation (conversation : Conversation.t)
| DeleteConversation (conversationId : string).

Definition call (m : Method) : list Effect :=
  match m with
  | AddDocument document => addDocument document
  | UpdateDocument document => updateDocument document
  | DeleteDocument documentId => deleteDocument documentId
  | AddConversation conversation => addConversation conversation
  | UpdateConversation conversation => updateConversation conversation
  | DeleteConversation conversationId => deleteConversation conversationId
  end.

(** What happens to a mounted provider.  [Render]: React renders again,
    and the events that follow call the functions of this new render.
    [LoadDocuments], [LoadConversations], [Manage]: a consumer or an effect
    calls a function of the current render.  [DocumentsSettled],
    [ConversationsSettled]: a pending Fetcher call settles and the load
    that awaited it continues. *)
Inductive Event : Type :=
| Render
| LoadDocuments (force : bool)
| DocumentsSettled
    (result : Service.settled (Service.ApiResponse Service.ItemsByType))
| LoadConversations (force : bool)
| ConversationsSettled
    (result : Service.settled
                (Service.ApiResponse Service.ConversationListResponse))
| Manage (m : Method).

Definition step (now : Z) (p : Provider) (e : Event) : Provider :=
  match e with
  | Render =>
      {| rendered := p.(store); store := p.(store);
         documentsInFlight := p.(documentsInFlight);
         conversationsInFlight := p.(conversationsInFlight) |}
  | LoadDocuments force =>
      match loadDocuments_begin now p.(rendered) force with
      | Returned _ => p
      | Awaiting trace =>
          {| rendered := p.(rendered);
             store := after now trace p.(store);
             documentsInFlight := S p.(documentsInFlight);
             conversationsInFlight := p.(conversationsInFlight) |}
      end
  | DocumentsSettled result =>
      match p.(documentsInFlight) with
      | 0 => p
      | S n =>
          {| rendered := p.(rendered);
             store := after now (loadDocuments_resume result) p.(store);
             documentsInFlight := n;
             conversationsInFlight := p.(conversationsInFlight) |}
      end
  | LoadConversations force =>
      match loadConversations_begin now p.(rendered) force with
      | Returned _ => p
      | Awaiting trace =>
          {| rendered := p.(rendered);
             store := after now trace p.(store);
             documentsInFlight := p.(documentsInFlight);
             conversationsInFlight := S p.(conversationsInFlight) |}
      end
  | ConversationsSettled result =>
      match p.(conversationsInFlight) with
      | 0 => p
      | S n =>
          {| rendered := p.(rendered);
             store := after now (loadConversations_resume result)
                        p.(store);
             documentsInFlight := p.(documentsInFlight);
             conversationsInFlight := n |}
      end
  | Manage m =>
      {| rendered := p.(rendered);
         store := after now (call m) p.(store);
         documentsInFlight := p.(documentsInFlight);
         conversationsInFlight := p.(conversationsInFlight) |}
  end.

(** A history: each event with the clock reading at which it happens. *)
Definition run (events : list (Z * Event)) (p : Provider) : Provider :=
  foldl (λ p e, step e.1 p e.2) p events.

(** *** Loads started together *)

(** The trace of a started load up to its [await], and what runs after it:
    the continuation, when the load is waiting for the Fetcher. *)
Definition begun (s : Started) : list Effect :=
  match s with
  | Returned trace => trace
  | Awaiting trace => trace
  end.

Definition continued (s : Started) (resume : list Effect) : list Effect :=
  match s with
  | Returned _ => []
  | Awaiting _ => resume
  end.

(** A documents load and a conversations load called one after the other
    without awaiting the first: both run up to their [await] in call order,
    and the continuations run in the order in which the two Fetcher calls
    settle ([documentsFirst]). *)
Definition together (d c : Started) (resumeD resumeC : list Effect)
    (documentsFirst : bool) : list Effect :=
  begun d ++ begun c
  ++ (if documentsFirst
      then continued d resumeD ++ continued c resumeC
      else continued c resumeC ++ continued d resumeD).

(** Refresh all data: [Promise.all([loadDocuments(true),
    loadConversations(true)])].  (Its own console line is not part of the
    trace.) *)
Definition refreshAll (now : Z) (state : DataState)
    (docsResult : Service.settled (Service.ApiResponse Service.ItemsByType))
    (convsResult : Service.settled
                     (Service.ApiResponse Service.ConversationListResponse))
    (documentsFirst : bool) : list Effect :=
  together (loadDocuments_begin now state true)
    (loadConversations_begin now state true)
    (loadDocuments_resume docsResult)
    (loadConversations_resume convsResult) documentsFirst.

(** The clock readings of one run of the visibility handler: its own two
    staleness checks and the checks inside the two loads it may call. *)
Record Readings : Type := mkReadings {
  checkDocuments : Z;
  inLoadDocuments : Z;
  checkConversations : Z;
  inLoadConversations : Z
}.

(** Auto-refresh stale data when the user comes back to the tab: the
    listener for ['visibilitychange'].  [hidden] is [document.hidden]. *)
Definition handleVisibilityChange (hidden : bool) (at_ : Readings)
    (state : DataState)
    (docsResult : Service.settled (Service.ApiResponse Service.ItemsByType))
    (convsResult : Service.settled
                     (Service.ApiResponse Service.ConversationListResponse))
    (documentsFirst : bool) : list Effect :=
  if negb hidden then
    together
      (if isStale at_.(checkDocuments) state Documents
       then loadDocuments_begin at_.(inLoadDocuments) state false
       else Returned [])
      (if isStale at_.(checkConversations) state Conversations
       then loadConversations_begin at_.(inLoadConversations) state false
       else Returned [])
      (loadDocuments_resume docsResult)
      (loadConversations_resume convsResult) documentsFirst
  else [].

End DataContext.

(** ** AuthContext: the reducer behind login and logout *)

Module AuthContext.

Record User : Type := mkUser {
  id : string;
  email : string;
  full_name : string;
  is_active : bool;
  created_at : string
}.

Record AuthState : Type := mkAuthState {
  isAuthenticated : bool;
  user : option User;
  token : option string;
  loading : bool;
  error : option string
}.

Inductive AuthAction : Type :=
| LOGIN_START
| LOGIN_SUCCESS (user : User) (token : string)
| LOGIN_FAILURE (payload : string)
| LOGOUT
| CLEAR_ERROR.

Definition authReducer (state : AuthState) (action : AuthAction)
    : AuthState :=
  match action with
  | LOGIN_START =>
      {| isAuthenticated := state.(isAuthenticated);
         user := state.(user); token := state.(token);
         loading := true; error := None |}
  | LOGIN_SUCCESS u t =>
      {| isAuthenticated := true; user := Some u; token := Some t;
         loading := false; error := None |}
  | LOGIN_FAILURE payload =>
      {| isAuthenticated := false; user := None; token := None;
         loading := false; error := Some payload |}
  | LOGOUT =>
      {| isAuthenticated := false; user := None; token := None;
         loading := false; error := None |}
  | CLEAR_ERROR =>
      {| isAuthenticated := state.(isAuthenticated);
         user := state.(user); token := state.(token);
         loading := state.(loading); error := None |}
  end.

End AuthContext.

(** ** The application: providers, local storage and the 401 interceptor *)

Module App.

(** What the browser tab holds: [localStorage] and the state of the
    providers mounted by [App.tsx]. *)
Record t : Type := mk {
  localStorage : gmap string string;
  auth : AuthContext.AuthState;
  data : DataContext.DataState
}.

(** AuthProvider's listener for ['auth:unauthorized']. *)
Definition handleUnauthorized (app : t) : t :=
  {| localStorage := app.(localStorage);
     auth := AuthContext.authReducer app.(auth) AuthContext.LOGOUT;
     data := app.(data) |}.

(** [window.dispatchEvent(new CustomEvent('auth:unauthorized'))] runs the
    listeners registered for that event.  AuthProvider registers the only
    one; DataProvider listens to ['visibilitychange'] alone. *)
Definition dispatch_auth_unauthorized (app : t) : t :=
  handleUnauthorized app.

(** The rejection handler of [api.interceptors.response]: [status] is
    [error.response?.status]. *)
Definition responseRejected (status : option Z) (app : t) : t :=
  if decide (status = Some 401%Z) then
    dispatch_auth_unauthorized
      {| localStorage := delete "user" (delete "token" app.(localStorage));
         auth := app.(auth);
         data := app.(data) |}
  else app.

End App.

(** ** The HTTP client and the service wrappers around it *)

Module Http.

(** How a call of [api.get], [api.post] or [api.delete] ends: with a
    response whose body is [data], or with an error, of which the services
    read [error.response?.data?.detail] and [error.message]. *)
Inductive outcome (T : Type) : Type :=
| ok (data : option T)
| failed (detail : option string) (message : option string).
Arguments ok {T}.
Arguments failed {T}.

(** Request interceptor: adds the bearer token of local storage, when there
    is one, to the headers of the request. *)
Definition requestInterceptor (localStorage : gmap string string)
    (headers : gmap string string) : gmap string string :=
  match localStorage !! "token" with
  | Some token =>
      if String.eqb token "" then headers
      else <["Authorization" := "Bearer " +:+ token]> headers
  | None => headers
  end.

End Http.

Module ConversationService.

(** Get all conversations for current user. *)
Definition getConversations
    (response : Http.outcome Service.ConversationListResponse)
    : Service.ApiResponse Service.ConversationListResponse :=
  match response with
  | Http.ok data => Service.mkResponse true data None
  | Http.failed detail message =>
      Service.mkResponse false None
        (Some (Js.or_string detail
                 (Js.or_string message "Failed to fetch conversations")))
  end.

End ConversationService.

Module GmailService.

Record ConnectionStatus : Type := mkConnectionStatus {
  connected : bool;
  email_address : option string
}.

Record EmailListResponse : Type := mkEmailListResponse {
  emails : list Js.object;
  total : Z;
  unread_count : Z
}.

Definition checkConnection (response : Http.outcome ConnectionStatus)
    : Service.ApiResponse ConnectionStatus :=
  match response with
  | Http.ok data => Service.mkResponse true data None
  | Http.failed detail _ =>
      Service.mkResponse false None
        (Some (Js.or_string detail "Connection check failed"))
  end.

(** [params?: { limit?: number; offset?: number }] *)
Record EmailsParams : Type := mkEmailsParams {
  limit : option Z;
  offset : option Z
}.

(** The entries that [getEmails] appends to its [URLSearchParams], in order
    (the values before [toString()]): a parameter that is missing or 0 is
    not appended. *)
Definition getEmails_query (params : option EmailsParams)
    : list (string * Z) :=
  let entry (name : string) (value : option Z) : list (string * Z) :=
    if Js.truthy_number value then [(name, default 0%Z value)] else [] in
  entry "limit" (params ≫= limit) ++ entry "offset" (params ≫= offset).

Definition getEmails (response : Http.outcome EmailListResponse)
    : Service.ApiResponse EmailListResponse :=
  match response with
  | Http.ok data => Service.mkResponse true data None
  | Http.failed detail message =>
      Service.mkResponse false None
        (Some (Js.or_string detail
                 (Js.or_string message "Failed to fetch emails")))
  end.

End GmailService.

(** ** GmailContext: emails held in [useState] cells *)

Module GmailContext.

Record GmailState : Type := mkGmailState {
  isConnected : bool;
  connectedEmail : option string;
  isLoading : bool;
  lastCheck : Z;
  emails : list Js.object;
  totalEmails : Z;
  unreadCount : Z;
  emailsLoaded : bool
}.

Definition initialState : GmailState :=
  {| isConnected := false; connectedEmail := None; isLoading := true;
     lastCheck := 0; emails := []; totalEmails := 0; unreadCount := 0;
     emailsLoaded := false |}.

(** [email] is the optional second argument. *)
Definition setConnectionStatus (now : Z) (connected : bool)
    (email : option string) (s : GmailState) : GmailState :=
  let s' :=
    {| isConnected := connected;
       connectedEmail := Js.or_null email;
       isLoading := s.(isLoading);
       lastCheck := now;
       emails := s.(emails);
       totalEmails := s.(totalEmails);
       unreadCount := s.(unreadCount);
       emailsLoaded := s.(emailsLoaded) |} in
  if negb connected then
    (* Clear emails when disconnected *)
    {| isConnected := s'.(isConnected);
       connectedEmail := s'.(connectedEmail);
       isLoading := s'.(isLoading);
       lastCheck := s'.(lastCheck);
       emails := [];
       totalEmails := 0;
       unreadCount := 0;
       emailsLoaded := false |}
  else s'.

Definition updateEmail (emailId : string) (updates : Js.object)
    (s : GmailState) : GmailState :=
  {| isConnected := s.(isConnected);
     connectedEmail := s.(connectedEmail);
     isLoading := s.(isLoading);
     lastCheck := s.(lastCheck);
     emails :=
       map (λ email,
              if decide (Js.get email "id" = Js.str emailId)
              then Js.spread email updates else email)
           s.(emails);
     totalEmails := s.(totalEmails);
     (* Update unread count if read status changed *)
     unreadCount :=
       (let prev := s.(unreadCount) in
        if decide (Js.get updates "is_read" ≠ Js.undefined) then
          if Js.truthy (Js.get updates "is_read")
          then Z.max 0 (prev - 1) else prev + 1
        else prev)%Z;
     emailsLoaded := s.(emailsLoaded) |}.

Definition addEmail (email : Js.object) (s : GmailState) : GmailState :=
  {| isConnected := s.(isConnected);
     connectedEmail := s.(connectedEmail);
     isLoading := s.(isLoading);
     lastCheck := s.(lastCheck);
     emails := email :: s.(emails);
     totalEmails := (s.(totalEmails) + 1)%Z;
     unreadCount := (s.(unreadCount) + 1)%Z;
     emailsLoaded := s.(emailsLoaded) |}.

(** [setX(v)] for the cells written by the functions below. *)
Definition set_isConnected (v : bool) (s : GmailState) : GmailState :=
  mkGmailState v s.(connectedEmail) s.(isLoading) s.(lastCheck) s.(emails)
    s.(totalEmails) s.(unreadCount) s.(emailsLoaded).
Definition set_connectedEmail (v : option string) (s : GmailState)
    : GmailState :=
  mkGmailState s.(isConnected) v s.(isLoading) s.(lastCheck) s.(emails)
    s.(totalEmails) s.(unreadCount) s.(emailsLoaded).
Definition set_isLoading (v : bool) (s : GmailState) : GmailState :=
  mkGmailState s.(isConnected) s.(connectedEmail) v s.(lastCheck) s.(emails)
    s.(totalEmails) s.(unreadCount) s.(emailsLoaded).
Definition set_lastCheck (v : Z) (s : GmailState) : GmailState :=
  mkGmailState s.(isConnected) s.(connectedEmail) s.(isLoading) v s.(emails)
    s.(totalEmails) s.(unreadCount) s.(emailsLoaded).
Definition set_emails (v : list Js.object) (s : GmailState) : GmailState :=
  mkGmailState s.(isConnected) s.(connectedEmail) s.(isLoading)
    s.(lastCheck) v s.(totalEmails) s.(unreadCount) s.(emailsLoaded).
Definition set_totalEmails (v : Z) (s : GmailState) : GmailState :=
  mkGmailState s.(isConnected) s.(connectedEmail) s.(isLoading)
    s.(lastCheck) s.(emails) v s.(unreadCount) s.(emailsLoaded).
Definition set_unreadCount (v : Z) (s : GmailState) : GmailState :=
  mkGmailState s.(isConnected) s.(connectedEmail) s.(isLoading)
    s.(lastCheck) s.(emails) s.(totalEmails) v s.(emailsLoaded).
Definition set_emailsLoaded (v : bool) (s : GmailState) : GmailState :=
  mkGmailState s.(isConnected) s.(connectedEmail) s.(isLoading)
    s.(lastCheck) s.(emails) s.(totalEmails) s.(unreadCount) v.

(** [checkConnection(force)]: the result says whether
    [gmailService.checkConnection()] was called, and [result] is what that
    call settled with. *)
Definition checkConnection (now : Z) (force : bool)
    (result : Service.settled
                (Service.ApiResponse GmailService.ConnectionStatus))
    (s : GmailState) : bool * GmailState :=
  (* Only check if forced or if it's been more than 5 minutes since last
     check *)
  if negb force && (now - s.(lastCheck) <? 5 * 60 * 1000)%Z
     && (0 <? s.(lastCheck))%Z
  then (false, set_isLoading false s)
  else
    let disconnected s := set_connectedEmail None (set_isConnected false s) in
    let s1 := set_isLoading true s in
    let s2 :=
      match result with
      | Service.resolved result =>
          match (if Service.success result then Service.data result
                 else None) with
          | Some data =>
              set_lastCheck now
                (set_connectedEmail
                   (Js.or_null data.(GmailService.email_address))
                   (set_isConnected data.(GmailService.connected) s1))
          | None => disconnected s1
          end
      | Service.rejected _ => disconnected s1
      end in
    (true, set_isLoading false s2).

(** [loadEmails(page, force)]: the result carries the parameters handed to
    [gmailService.getEmails] when it is called, and [response] is what that
    call settled with. *)
Definition loadEmails (page : Z) (force : bool)
    (response : Service.settled
                  (Service.ApiResponse GmailService.EmailListResponse))
    (s : GmailState) : option GmailService.EmailsParams * GmailState :=
  (* Don't reload if already loaded and not forced *)
  if s.(emailsLoaded) && negb force then (None, s)
  else if negb s.(isConnected) then (None, s)
  else
    let offset := ((page - 1) * 20)%Z in
    (Some (GmailService.mkEmailsParams (Some 20%Z) (Some offset)),
     match response with
     | Service.resolved response =>
         match (if Service.success response then Service.data response
                else None) with
         | Some data =>
             set_emailsLoaded true
               (set_unreadCount data.(GmailService.unread_count)
                  (set_totalEmails data.(GmailService.total)
                     (set_emails data.(GmailService.emails) s)))
         | None => s
         end
     | Service.rejected _ => s
     end).

End GmailContext.

(** ** authService and the functions of AuthProvider *)

Module AuthService.

Record LoginResponse : Type := mkLoginResponse {
  access_token : string;
  token_type : string;
  user : AuthContext.User
}.

(** Logout user: just clear local storage. *)
Definition logout (localStorage : gmap string string)
    : gmap string string :=
  delete "user" (delete "token" localStorage).

(** Check if user is authenticated: [!!localStorage.getItem('token')]. *)
Definition isAuthenticated (localStorage : gmap string string) : bool :=
  match localStorage !! "token" with
  | Some token => negb (String.eqb token "")
  | None => false
  end.

End AuthService.

Module AuthProvider.

(** What [login] and [signup] return to the page. *)
Record Returned : Type := mkReturned {
  success : bool;
  error : option string
}.

(** [login(email, password)]: the actions it dispatches and what it
    returns, for the way [authService.login] settled. *)
Definition login
    (result : Service.settled
                (Service.ApiResponse AuthService.LoginResponse))
    : list AuthContext.AuthAction * Returned :=
  let failed errorMessage :=
    ([AuthContext.LOGIN_START; AuthContext.LOGIN_FAILURE errorMessage],
     mkReturned false (Some errorMessage)) in
  match result with
  | Service.resolved result =>
      match (if Service.success result then Service.data result
             else None) with
      | Some data =>
          ([AuthContext.LOGIN_START;
            AuthContext.LOGIN_SUCCESS data.(AuthService.user)
              data.(AuthService.access_token)],
           mkReturned true None)
      | None =>
          failed (Js.or_string (Service.error result)
                    "Login failed. Please check your credentials.")
      end
  | Service.rejected _ =>
      failed "Network error. Please check your connection and try again."
  end.

(** [signup(email, password, full_name)]: after a successful signup it
    logs in; [loginResult] is how that login's service call settles. *)
Definition signup
    (result : Service.settled (Service.ApiResponse string))
    (loginResult : Service.settled
                     (Service.ApiResponse AuthService.LoginResponse))
    : list AuthContext.AuthAction * Returned :=
  let failed errorMessage :=
    ([AuthContext.LOGIN_START; AuthContext.LOGIN_FAILURE errorMessage],
     mkReturned false (Some errorMessage)) in
  match result with
  | Service.resolved result =>
      if Service.success result then
        (* After successful signup, automatically login *)
        (AuthContext.LOGIN_START :: (login loginResult).1,
         (login loginResult).2)
      else
        failed (Js.or_string (Service.error result)
                  "Signup failed. Please try again.")
  | Service.rejected _ =>
      failed "Network error. Please check your connection and try again."
  end.

(** The auth state after the dispatched actions. *)
Definition reduce (actions : list AuthContext.AuthAction)
    (state : AuthContext.AuthState) : AuthContext.AuthState :=
  foldl AuthContext.authReducer state actions.

(** [logout()]: clear local storage, then dispatch LOGOUT. *)
Definition logout (app : App.t) : App.t :=
  {| App.localStorage := AuthService.logout app.(App.localStorage);
     App.auth :=
       AuthContext.authReducer app.(App.auth) AuthContext.LOGOUT;
     App.data := app.(App.data) |}.

End AuthProvider.

(** ** Pages that drive the caches *)

Module DocumentsPage.

(** The service function that [confirmDelete] picks for a document. *)
Inductive DeleteCall : Type :=
| deleteDocument (documentId : string)
| deleteNote (noteId : string)
| deleteAudio (audioId : string).

(** [confirmDelete()]: [documentToDelete] is the page's selection and
    [result] what the delete call settled with.  The result is the service
    call made, if any, and what is dispatched to the cache. *)
Definition confirmDelete (documentToDelete : option Document.t)
    (result : Service.settled (Service.ApiResponse string))
    : option DeleteCall * list DataContext.Effect :=
  match documentToDelete with
  | None => (None, [])
  | Some document =>
      (Some
         match Document.document_type document with
         | Document.pdf => deleteDocument (Document.id document)
         | Document.note => deleteNote (Document.id document)
         | Document.audio => deleteAudio (Document.id document)
         end,
       match result with
       | Service.resolved result =>
           if Service.success result
           then (* Update cache immediately *)
             DataContext.deleteDocument (Document.id document)
           else []
       | Service.rejected _ => []
       end)
  end.

End DocumentsPage.

Module Inbox.

(** The typed view of a cached email that the handlers receive. *)
Record Email : Type := mkEmail {
  id : string;
  is_read : bool;
  is_starred : bool
}.

(** [handleEmailClick(email)], as far as the Gmail context is concerned:
    [result] is how [gmailService.getEmailDetail] settled. *)
Definition handleEmailClick (email : Email)
    (result : Service.settled (Service.ApiResponse Js.object))
    (s : GmailContext.GmailState) : GmailContext.GmailState :=
  match result with
  | Service.resolved result =>
      match (if Service.success result then Service.data result
             else None) with
      | Some _ =>
          (* Mark as read using context *)
          if negb email.(is_read)
          then GmailContext.updateEmail email.(id)
                 {[ "is_read" := Js.boolean true ]} s
          else s
      | None => s
      end
  | Service.rejected _ => s
  end.

(** Payload of [gmailService.toggleStar]. *)
Record StarResponse : Type := mkStarResponse {
  starred : bool;
  message : string
}.

Definition handleToggleStar (email : Email)
    (result : Service.settled (Service.ApiResponse StarResponse))
    (s : GmailContext.GmailState) : GmailContext.GmailState :=
  match result with
  | Service.resolved result =>
      match (if Service.success result then Service.data result
             else None) with
      | Some data =>
          let newStarred := data.(starred) in
          GmailContext.updateEmail email.(id)
            {[ "is_starred" := Js.boolean newStarred ]} s
      | None => s
      end
  | Service.rejected _ => s
  end.

(** A message of the notification socket: [data.type] and [data.data]. *)
Record SocketMessage : Type := mkSocketMessage {
  type : Js.value;
  data : Js.object
}.

Definition handleWebSocketMessage (msg : SocketMessage)
    (s : GmailContext.GmailState) : GmailContext.GmailState :=
  if decide (msg.(type) = Js.str "new_email")
  then GmailContext.addEmail msg.(data) s
  else s.


End Inbox.

(** ** Vocabulary of the properties *)

Import DataContext.

(** The cached statistics agree with the collections they are derived
    from. *)
Definition stats_consistent (s : DataState) : Prop :=
  s.(stats) = calculateStats s.(documents) (length s.(conversations)).

(** The store after a history of dispatched actions, each with the clock
    reading at which the reducer handles it. *)
Definition replay (history : list (Z * DataAction)) (s : DataState)
    : DataState :=
  foldl (λ s e, dataReducer e.1 s e.2) s history.

(** A load that is answered from the cache: no Fetcher invocation, nothing
    dispatched, hence any store left as it is. *)
Definition served_from_cache (c : CollectionName) (trace : list Effect)
    : Prop :=
  fetcherCalls c trace = 0 ∧ dispatched trace = []
  ∧ ∀ now store, after now trace store = store.

(** How a settled Fetcher call counts as a failure, and with which message:
    a rejected promise fails with the message of its error; a response
    fails unless it has [success] and [data], with its [error] text or, when
    that is missing or empty, the load function's [fallback]. *)
Definition failure {T : Type} (fallback : string)
    (result : Service.settled (Service.ApiResponse T)) : option string :=
  match result with
  | Service.rejected message => Some message
  | Service.resolved r =>
      match Service.success r, Service.data r with
      | true, Some _ => None
      | _, _ => Some (Js.or_string (Service.error r) fallback)
      end
  end.

(** The ids of a collection, in display order. *)
Definition document_ids (s : DataState) : list string :=
  map Document.id s.(documents).
Definition conversation_ids (s : DataState) : list string :=
  map Conversation.id s.(conversations).

(** The staleness record of a collection. *)
Definition lastFetch (type : CollectionName) (s : DataState) : option Z :=
  match type with
  | Documents => s.(documentsLastFetch)
  | Conversations => s.(conversationsLastFetch)
  end.

(** The number of Fetcher calls of a collection that have not settled. *)
Definition inFlight (type : CollectionName) (p : Provider) : nat :=
  match type with
  | Documents => p.(documentsInFlight)
  | Conversations => p.(conversationsInFlight)
  end.

(** A history in which React has rendered the current store before every
    event, so that each call reads the latest state. *)
Definition run_rendered (events : list (Z * Event)) (p : Provider)
    : Provider :=
  foldl (λ p e, step e.1 (step e.1 p Render) e.2) p events.

(** The in-flight counters agree with the loading flags of the store. *)
Definition flags_track_fetches (p : Provider) : Prop :=
  p.(documentsInFlight) = (if p.(store).(documentsLoading) then 1 else 0)
  ∧ p.(conversationsInFlight)
    = (if p.(store).(conversationsLoading) then 1 else 0).

(** Both collections empty and both staleness records unset. *)
Definition cache_cleared (s : DataState) : Prop :=
  s.(documents) = [] ∧ s.(conversations) = []
  ∧ s.(documentsLastFetch) = None ∧ s.(conversationsLastFetch) = None.

(** ** Sample data *)

Module Sample.

Definition docA : Document.t :=
  Document.mk "doc-a" "u1" "Quarterly report" Document.pdf
    "2025-01-01T00:00:00Z" "2025-01-01T00:00:00Z".
Definition docB : Document.t :=
  Document.mk "doc-b" "u1" "Meeting notes" Document.note
    "2025-01-02T00:00:00Z" "2025-01-02T00:00:00Z".
Definition convA : Conversation.t :=
  Conversation.mk "conv-a" "u1" "Pricing" "2025-01-03T00:00:00Z"
    "2025-01-03T00:00:00Z" 2 (Some "ok") None.

(** The store after documents [A, B] and conversation [A] were fetched at
    clock reading 1000. *)
Definition loaded : DataState :=
  replay [ (1000%Z, DOCUMENTS_LOADING_SUCCESS [docA; docB]);
           (1000%Z, CONVERSATIONS_LOADING_SUCCESS [convA]) ]
    initialState.

Definition items : Service.ItemsByType :=
  Service.mkItems [docA] [docB] [].
Definition itemsResponse : Service.ApiResponse Service.ItemsByType :=
  Service.mkResponse true (Some items) None.
Definition itemsOk
    : Service.settled (Service.ApiResponse Service.ItemsByType) :=
  Service.resolved itemsResponse.
Definition itemsFailed
    : Service.settled (Service.ApiResponse Service.ItemsByType) :=
  Service.resolved
    (Service.mkResponse false None (Some "Failed to fetch items by type")).
Definition conversationsOk
    : Service.settled
        (Service.ApiResponse Service.ConversationListResponse) :=
  Service.resolved
    (Service.mkResponse true (Some (Service.mkConversationList [convA]))
       None).
Definition conversationsFailed
    : Service.settled
        (Service.ApiResponse Service.ConversationListResponse) :=
  Service.resolved (Service.mkResponse false None (Some "Network Error")).

Definition signedIn : App.t :=
  {| App.localStorage := {[ "token" := "jwt"; "user" := "{}" ]};
     App.auth :=
       AuthContext.authReducer
         (AuthContext.mkAuthState false None None false None)
         (AuthContext.LOGIN_SUCCESS
            (AuthContext.mkUser "u1" "a@b.c" "A" true "2025-01-01")
            "jwt");
     App.data := loaded |}.

Definition inbox : GmailContext.GmailState :=
  {| GmailContext.isConnected := true;
     GmailContext.connectedEmail := Some "a@b.c";
     GmailContext.isLoading := false;
     GmailContext.lastCheck := 1000;
     GmailContext.emails :=
       [ {[ "id" := Js.str "m1"; "is_read" := Js.boolean false ]} ];
     GmailContext.totalEmails := 1;
     GmailContext.unreadCount := 1;
     GmailContext.emailsLoaded := true |}.

End Sample.

(** ** Further vocabulary *)

(** Actions that belong to the documents, and to the conversations. *)
Definition on_documents (action : DataAction) : bool :=
  match action with
  | DOCUMENTS_LOADING_START | DOCUMENTS_LOADING_SUCCESS _
  | DOCUMENTS_LOADING_FAILURE _ | ADD_DOCUMENT _ | UPDATE_DOCUMENT _
  | DELETE_DOCUMENT _ | FORCE_REFRESH_DOCUMENTS => true
  | _ => false
  end.

Definition on_conversations (action : DataAction) : bool :=
  negb (on_documents action).

(** The part of the store that belongs to the conversations, and the part
    that belongs to the documents (the statistics are shared). *)
Definition conversations_part (s : DataState) :=
  (s.(conversations), s.(conversationsLoading), s.(conversationsLastFetch),
   s.(conversationsError), s.(hasInitializedConversations),
   s.(stats).(totalConversations)).

Definition documents_part (s : DataState) :=
  (s.(documents), s.(documentsLoading), s.(documentsLastFetch),
   s.(documentsError), s.(hasInitializedDocuments),
   (s.(stats).(totalDocuments), s.(stats).(totalNotes),
    s.(stats).(totalAudio), s.(stats).(totalItems))).

(** The three lists of a fetched payload hold the type they are named
    after, as [getAllItemsByType] builds them. *)
Definition sorted_by_type (items : Service.ItemsByType) : Prop :=
  Forall (λ d, Document.document_type d = Document.pdf)
    (Service.documents items)
  ∧ Forall (λ d, Document.document_type d = Document.note)
      (Service.notes items)
  ∧ Forall (λ d, Document.document_type d = Document.audio)
      (Service.audio items).

(** The ids of the cached emails, in display order. *)
Definition email_ids (s : GmailContext.GmailState) : list Js.value :=
  map (λ email, Js.get email "id") s.(GmailContext.emails).

(** Integers that JavaScript numbers hold and compute with exactly. *)
Definition safe_integer (n : Z) : Prop :=
  (- (2 ^ 53 - 1) ≤ n ≤ 2 ^ 53 - 1)%Z.

(** Clock readings of the visibility handler that do not run backwards
    between a check and the load that follows it. *)
Definition forward (r : Readings) : Prop :=
  (r.(checkDocuments) ≤ r.(inLoadDocuments))%Z
  ∧ (r.(checkConversations) ≤ r.(inLoadConversations))%Z.

(** ** Properties of the reducer *)

Section Reducer.

Implicit Types (now : Z) (state : DataState) (action : DataAction).

Lemma initialState_consistent : stats_consistent initialState.
Proof. reflexivity. Qed.

Lemma length_map_replace {A : Type} (f : A → A) (l : list A) :
  length (map f l) = length l.
Proof. induction l as [|x l IH]; simpl; congruence. Qed.

(** One reducer step keeps the statistics consistent.  The document cases
    reuse the cached conversation count, which consistency identifies with
    the length of the conversation list; UPDATE_CONVERSATION does not
    recompute, and a map keeps the length. *)
Lemma dataReducer_consistent now state action :
  stats_consistent state → stats_consistent (dataReducer now state action).
Proof.
  unfold stats_consistent. intros Hs.
  assert (Hc : state.(stats).(totalConversations)
               = length state.(conversations)) by (rewrite Hs; reflexivity).
  destruct action; simpl; rewrite ?Hc; try reflexivity; try assumption.
  rewrite length_map_replace. assumption.
Qed.

Lemma replay_consistent history : ∀ state,
  stats_consistent state → stats_consistent (replay history state).
Proof.
  induction history as [|[now action] history IH]; intros state Hs.
  - exact Hs.
  - apply IH. apply dataReducer_consistent. exact Hs.
Qed.

(** C6. After every sequence of actions dispatched to the store since it
    was created (loads, adds, updates, removals and replace-alls, at any
    clock readings), the [stats] field equals [calculateStats] recomputed
    from the current documents and the current number of conversations. *)
Theorem stats_never_drift (history : list (Z * DataAction)) :
  (replay history initialState).(stats)
  = calculateStats (replay history initialState).(documents)
      (length (replay history initialState).(conversations)).
Proof. apply (replay_consistent history), initialState_consistent. Qed.

End Reducer.

(** ** Properties of the load functions *)

Section Load.

Implicit Types (now doneAt : Z) (state store : DataState) (force : bool).

(** The guards of a load read nothing but the render's [state]: the
    decision to return or to fetch is the same however often the function
    is called. *)
Lemma loadDocuments_begin_awaits now state force :
  state.(documentsLoading) = false →
  negb force && negb (isStale now state Documents)
    && (0 <? length state.(documents)) = false →
  ∃ line, loadDocuments_begin now state force
          = Awaiting [ Log Documents line;
                       Dispatch DOCUMENTS_LOADING_START;
                       CallFetcher Documents ].
Proof.
  intros Hl Hg. unfold loadDocuments_begin. rewrite Hl, Hg. eauto.
Qed.

Lemma loadConversations_begin_awaits now state force :
  state.(conversationsLoading) = false →
  negb force && negb (isStale now state Conversations)
    && (0 <? length state.(conversations)) = false →
  ∃ line, loadConversations_begin now state force
          = Awaiting [ Log Conversations line;
                       Dispatch CONVERSATIONS_LOADING_START;
                       CallFetcher Conversations ].
Proof.
  intros Hl Hg. unfold loadConversations_begin. rewrite Hl, Hg. eauto.
Qed.

Lemma fetcherCalls_app c (t1 t2 : list Effect) :
  fetcherCalls c (t1 ++ t2) = fetcherCalls c t1 + fetcherCalls c t2.
Proof.
  induction t1 as [|[]]; simpl; rewrite ?IHt1; lia.
Qed.

Lemma dispatched_app (t1 t2 : list Effect) :
  dispatched (t1 ++ t2) = dispatched t1 ++ dispatched t2.
Proof.
  induction t1 as [|[]]; simpl; rewrite ?IHt1; reflexivity.
Qed.

(** The continuation of a load never calls the Fetcher again. *)
Lemma loadDocuments_resume_no_fetch c result :
  fetcherCalls c (loadDocuments_resume result) = 0.
Proof.
  destruct result as [[[] [d|] e]|m]; reflexivity.
Qed.

Lemma loadConversations_resume_no_fetch c result :
  fetcherCalls c (loadConversations_resume result) = 0.
Proof.
  destruct result as [[[] [d|] e]|m]; reflexivity.
Qed.

Lemma nonempty_length {A : Type} (l : list A) :
  l ≠ [] → (0 <? length l) = true.
Proof. destruct l; [congruence | reflexivity]. Qed.

(** The cache gate, on the [state] that the called function reads (the
    state of the render that created it, not the store): when that state
    has the loading flag off, then without [force], on a list that the
    state shows as not stale and not empty, the call invokes no Fetcher and
    dispatches nothing; with [force] it invokes the Fetcher exactly once.
    Both for documents and for conversations. *)
Lemma load_cache_gate now state docsResult convsResult :
  (state.(documentsLoading) = false →
     (isStale now state Documents = false → state.(documents) ≠ [] →
        served_from_cache Documents
          (loadDocuments now state false docsResult))
     ∧ fetcherCalls Documents (loadDocuments now state true docsResult)
       = 1)
  ∧ (state.(conversationsLoading) = false →
     (isStale now state Conversations = false →
      state.(conversations) ≠ [] →
        served_from_cache Conversations
          (loadConversations now state false convsResult))
     ∧ fetcherCalls Conversations
         (loadConversations now state true convsResult) = 1).
Proof.
  split; intros Hl; split.
  - intros Hs Hne. unfold loadDocuments, loadDocuments_begin.
    rewrite Hl, Hs, (nonempty_length _ Hne). simpl.
    repeat split; reflexivity.
  - unfold loadDocuments.
    destruct (loadDocuments_begin_awaits now state true Hl eq_refl)
      as [line ->].
    rewrite fetcherCalls_app, loadDocuments_resume_no_fetch.
    reflexivity.
  - intros Hs Hne. unfold loadConversations, loadConversations_begin.
    rewrite Hl, Hs, (nonempty_length _ Hne). simpl.
    repeat split; reflexivity.
  - unfold loadConversations.
    destruct (loadConversations_begin_awaits now state true Hl eq_refl)
      as [line ->].
    rewrite fetcherCalls_app, loadConversations_resume_no_fetch.
    reflexivity.
Qed.

(** At clock reading 61000 the sample store, fetched at 1000, is fresh and
    not empty. *)
Lemma load_cache_gate_witness :
  served_from_cache Documents
    (loadDocuments 61000 Sample.loaded false Sample.itemsOk)
  ∧ fetcherCalls Documents
      (loadDocuments 61000 Sample.loaded true Sample.itemsOk) = 1
  ∧ served_from_cache Conversations
      (loadConversations 61000 Sample.loaded false Sample.conversationsOk)
  ∧ fetcherCalls Conversations
      (loadConversations 61000 Sample.loaded true Sample.conversationsOk)
    = 1.
Proof.
  destruct (load_cache_gate 61000 Sample.loaded Sample.itemsOk
              Sample.conversationsOk) as [Hd Hc].
  destruct (Hd eq_refl) as [Hd1 Hd2].
  destruct (Hc eq_refl) as [Hc1 Hc2].
  split; [|split; [|split]].
  - apply Hd1; [reflexivity | discriminate].
  - exact Hd2.
  - apply Hc1; [reflexivity | discriminate].
  - exact Hc2.
Defined.

(** A load that reaches the Fetcher has the trace of the long path:
    START is dispatched, the Fetcher is called, and the continuation runs
    on what the Fetcher settled with. *)
Lemma loadDocuments_fetching now state force result :
  fetcherCalls Documents (loadDocuments now state force result) = 1 →
  ∃ line, loadDocuments now state force result
          = [ Log Documents line; Dispatch DOCUMENTS_LOADING_START;
              CallFetcher Documents ] ++ loadDocuments_resume result.
Proof.
  unfold loadDocuments, loadDocuments_begin.
  destruct state.(documentsLoading); [discriminate|].
  destruct (negb force && negb (isStale now state Documents)
            && (0 <? length state.(documents))); [discriminate|].
  eauto.
Qed.

Lemma loadConversations_fetching now state force result :
  fetcherCalls Conversations (loadConversations now state force result)
  = 1 →
  ∃ line, loadConversations now state force result
          = [ Log Conversations line;
              Dispatch CONVERSATIONS_LOADING_START;
              CallFetcher Conversations ]
            ++ loadConversations_resume result.
Proof.
  unfold loadConversations, loadConversations_begin.
  destruct state.(conversationsLoading); [discriminate|].
  destruct (negb force && negb (isStale now state Conversations)
            && (0 <? length state.(conversations))); [discriminate|].
  eauto.
Qed.

(** What the continuation dispatches, by the way the Fetcher settled. *)
Lemma loadDocuments_resume_failure result message :
  failure "Failed to load documents" result = Some message →
  dispatched (loadDocuments_resume result)
  = [DOCUMENTS_LOADING_FAILURE message].
Proof.
  destruct result as [[[] [d|] e]|m]; simpl; intros [= <-];
    reflexivity.
Qed.

Lemma loadConversations_resume_failure result message :
  failure "Failed to load conversations" result = Some message →
  dispatched (loadConversations_resume result)
  = [CONVERSATIONS_LOADING_FAILURE message].
Proof.
  destruct result as [[[] [d|] e]|m]; simpl; intros [= <-];
    reflexivity.
Qed.

(** C2. A load that invokes the Fetcher and sees it fail with [message]
    leaves the documents (conversations) of the store exactly as they were
    when it was called, sets the collection's error field to [message],
    and leaves the collection's last-fetch mark as it was.  This holds for
    every store, in particular for one whose collection is not empty. *)
Theorem failed_load_keeps_cache now doneAt state store force :
  (∀ result message,
     fetcherCalls Documents (loadDocuments now state force result) = 1 →
     failure "Failed to load documents" result = Some message →
     let store' :=
       after doneAt (loadDocuments now state force result) store in
     store'.(documents) = store.(documents)
     ∧ store'.(documentsError) = Some message
     ∧ store'.(documentsLastFetch) = store.(documentsLastFetch))
  ∧ (∀ result message,
     fetcherCalls Conversations
       (loadConversations now state force result) = 1 →
     failure "Failed to load conversations" result = Some message →
     let store' :=
       after doneAt (loadConversations now state force result) store in
     store'.(conversations) = store.(conversations)
     ∧ store'.(conversationsError) = Some message
     ∧ store'.(conversationsLastFetch) = store.(conversationsLastFetch)).
Proof.
  split; intros result message Hcall Hfail store'; subst store'.
  - destruct (loadDocuments_fetching _ _ _ _ Hcall) as [line ->].
    unfold after. rewrite dispatched_app.
    rewrite (loadDocuments_resume_failure _ _ Hfail).
    repeat split.
  - destruct (loadConversations_fetching _ _ _ _ Hcall) as [line ->].
    unfold after. rewrite dispatched_app.
    rewrite (loadConversations_resume_failure _ _ Hfail).
    repeat split.
Qed.

(** A stale, non-empty store whose background refresh fails. *)
Lemma failed_load_keeps_cache_witness :
  let store' :=
    after 400000
      (loadDocuments 400000 Sample.loaded false Sample.itemsFailed)
      Sample.loaded in
  store'.(documents) = [Sample.docA; Sample.docB]
  ∧ store'.(documentsError) = Some "Failed to fetch items by type"
  ∧ store'.(documentsLastFetch) = Some 1000%Z.
Proof.
  exact (proj1 (failed_load_keeps_cache 400000 400000 Sample.loaded
                  Sample.loaded false)
           Sample.itemsFailed "Failed to fetch items by type"
           eq_refl eq_refl).
Defined.

(** C8. A load whose Fetcher invocation succeeds with the sequence [S]
    leaves a store whose collection is exactly [S] (for documents the
    fetched documents, notes and audio in that order; for conversations
    the fetched list), whose last-fetch mark is the clock reading at which
    the success is handled, whose loading flag is off and whose error
    field is empty. *)
Theorem successful_load_replaces now doneAt state store force :
  (∀ r items,
     fetcherCalls Documents
       (loadDocuments now state force (Service.resolved r)) = 1 →
     Service.success r = true → Service.data r = Some items →
     let store' :=
       after doneAt (loadDocuments now state force (Service.resolved r))
         store in
     store'.(documents)
     = Service.documents items ++ Service.notes items
         ++ Service.audio items
     ∧ store'.(documentsLastFetch) = Some doneAt
     ∧ store'.(documentsLoading) = false
     ∧ store'.(documentsError) = None)
  ∧ (∀ r list,
     fetcherCalls Conversations
       (loadConversations now state force (Service.resolved r)) = 1 →
     Service.success r = true → Service.data r = Some list →
     let store' :=
       after doneAt
         (loadConversations now state force (Service.resolved r)) store in
     store'.(conversations) = Service.conversations list
     ∧ store'.(conversationsLastFetch) = Some doneAt
     ∧ store'.(conversationsLoading) = false
     ∧ store'.(conversationsError) = None).
Proof.
  split; intros r payload Hcall Hok Hdata store'; subst store'.
  - destruct (loadDocuments_fetching _ _ _ _ Hcall) as [line ->].
    unfold after. rewrite dispatched_app. simpl.
    rewrite Hok, Hdata. repeat split.
  - destruct (loadConversations_fetching _ _ _ _ Hcall) as [line ->].
    unfold after. rewrite dispatched_app. simpl.
    rewrite Hok, Hdata. repeat split.
Qed.

(** The first load of a fresh provider, answered at clock reading 5000. *)
Lemma successful_load_replaces_witness :
  let store' :=
    after 5000 (loadDocuments 4000 initialState false Sample.itemsOk)
      initialState in
  store'.(documents) = [Sample.docA; Sample.docB]
  ∧ store'.(documentsLastFetch) = Some 5000%Z
  ∧ store'.(documentsLoading) = false
  ∧ store'.(documentsError) = None.
Proof.
  exact (proj1 (successful_load_replaces 4000 5000 initialState
                  initialState false)
           Sample.itemsResponse Sample.items eq_refl eq_refl eq_refl).
Defined.

End Load.

(** ** In-flight loads *)

Section InFlight.

Implicit Types (now : Z) (state : DataState) (p : Provider).

(** A call that reads a [state] whose loading flag is set returns at once:
    no Fetcher call, nothing dispatched. *)
Lemma load_returns_while_loading now state force docsResult convsResult :
  (state.(documentsLoading) = true →
     loadDocuments now state force docsResult = [])
  ∧ (state.(conversationsLoading) = true →
     loadConversations now state force convsResult = []).
Proof.
  split; intros H.
  - unfold loadDocuments, loadDocuments_begin. rewrite H. reflexivity.
  - unfold loadConversations, loadConversations_begin. rewrite H.
    reflexivity.
Qed.

Lemma step_rendered_tracks now p e :
  flags_track_fetches p →
  flags_track_fetches (step now (step now p Render) e).
Proof.
  destruct p as [r s nd nc]. unfold flags_track_fetches. simpl.
  intros [Hd Hc]. destruct e as [|force|result|force|result|m]; simpl.
  - auto.
  - unfold loadDocuments_begin.
    destruct s.(documentsLoading) eqn:Hl; simpl; [rewrite Hl; auto|].
    destruct (negb force && negb (isStale now s Documents)
              && (0 <? length s.(documents))); simpl;
      [rewrite Hl; auto|].
    subst nd. auto.
  - destruct nd as [|nd]; simpl; [auto|].
    destruct s.(documentsLoading); [|discriminate].
    injection Hd as ->.
    destruct result as [[[] [d|] e]|msg]; simpl; auto.
  - unfold loadConversations_begin.
    destruct s.(conversationsLoading) eqn:Hl; simpl; [rewrite Hl; auto|].
    destruct (negb force && negb (isStale now s Conversations)
              && (0 <? length s.(conversations))); simpl;
      [rewrite Hl; auto|].
    subst nc. auto.
  - destruct nc as [|nc]; simpl; [auto|].
    destruct s.(conversationsLoading); [|discriminate].
    injection Hc as ->.
    destruct result as [[[] [d|] e]|msg]; simpl; auto.
  - destruct m; simpl; auto.
Qed.

(** When every call is made by a render that has seen the latest store,
    the guard works: each collection has at most one Fetcher call
    outstanding. *)
Lemma rendered_calls_keep_one_fetch events : ∀ p type,
  flags_track_fetches p →
  flags_track_fetches (run_rendered events p)
  ∧ inFlight type (run_rendered events p) ≤ 1.
Proof.
  assert (Hle : ∀ p type, flags_track_fetches p → inFlight type p ≤ 1).
  { intros p [] [Hd Hc]; simpl.
    - rewrite Hd. destruct p.(store).(documentsLoading); lia.
    - rewrite Hc. destruct p.(store).(conversationsLoading); lia. }
  induction events as [|[now e] events IH]; intros p type Hp.
  - split; [exact Hp | apply Hle, Hp].
  - apply IH. apply step_rendered_tracks, Hp.
Qed.

(** Calls made by one and the same render all read the same [state]: the
    START dispatched by the first does not reach the guard of the next.
    Forced loads of a render that saw no load in flight therefore each
    reach the Fetcher. *)
Lemma forced_loads_of_one_render now (n : nat) : ∀ p,
  p.(rendered).(documentsLoading) = false →
  inFlight Documents (run (replicate n (now, LoadDocuments true)) p)
  = n + inFlight Documents p.
Proof.
  induction n as [|n IH]; intros p Hl; [reflexivity|].
  simpl. unfold loadDocuments_begin. rewrite Hl. simpl.
  rewrite IH by exact Hl. simpl. lia.
Qed.

(** C3 (evaluation at the failing input).  On mount, two calls of
    [loadDocuments()] made through the functions of the first render (the
    effect of a page and, 50 ms later, the provider's own mount effect):
    after the first call one fetch is outstanding and the store's loading
    flag is set, yet the second call invokes the Fetcher again, leaving
    two fetches outstanding.  The same holds for [loadConversations]. *)
Theorem second_call_of_a_render_fetches_again :
  let first := step 0 mount (LoadDocuments false) in
  let second := step 50 first (LoadDocuments false) in
  inFlight Documents first = 1
  ∧ first.(store).(documentsLoading) = true
  ∧ inFlight Documents second = 2
  ∧ inFlight Conversations
      (run [(0%Z, LoadConversations true); (1%Z, LoadConversations true)]
         mount) = 2.
Proof. repeat split. Qed.

(** C1 (evaluation at the failing inputs).  The gate reads the state of
    the render that created the function, not the collection.  First
    history: on mount a page's effect loads the documents and the fetch
    settles with [A, B]; the store is then fresh and not empty and no load
    is in flight, yet [loadDocuments()] called through the first render
    (the provider's own mount effect, 50 ms after the mount) invokes the
    Fetcher again.  Second history: the same, but a render has seen the
    loading flag before the fetch settled; no load is in flight any more,
    yet [loadDocuments(true)] called through that render (the timer of an
    upload) returns without invoking the Fetcher. *)
Theorem gate_reads_the_render_not_the_store :
  let fetched :=
    run [ (0%Z, LoadDocuments false);
          (30%Z, DocumentsSettled Sample.itemsOk) ] mount in
  let flagged :=
    run [ (0%Z, LoadDocuments false); (1%Z, Render);
          (30%Z, DocumentsSettled Sample.itemsOk) ] mount in
  (fetched.(store).(documents) = [Sample.docA; Sample.docB]
   ∧ isStale 50 fetched.(store) Documents = false
   ∧ fetched.(store).(documentsLoading) = false
   ∧ inFlight Documents fetched = 0
   ∧ inFlight Documents (step 50 fetched (LoadDocuments false)) = 1)
  ∧ (flagged.(store).(documentsLoading) = false
     ∧ inFlight Documents flagged = 0
     ∧ step 1000 flagged (LoadDocuments true) = flagged).
Proof. repeat split. Qed.

End InFlight.

(** ** Adding entities *)

Section Add.

Implicit Types (now : Z) (state : DataState).

(** C4 (counterexample).  Document A is in the collection; adding A again
    is not a no-op: the store changes, and the id of A now occurs twice. *)
Lemma add_of_existing_id_duplicates :
  Document.id Sample.docA ∈ document_ids Sample.loaded
  ∧ dataReducer 2000 Sample.loaded (ADD_DOCUMENT Sample.docA)
    ≠ Sample.loaded
  ∧ ¬ NoDup (document_ids
               (dataReducer 2000 Sample.loaded
                  (ADD_DOCUMENT Sample.docA))).
Proof.
  split; [|split].
  - left.
  - intros H. apply (f_equal (λ s, length s.(documents))) in H.
    discriminate H.
  - intros H. apply NoDup_cons in H as [Hnotin _].
    apply Hnotin. right. left.
Qed.

(** C4 (amended).  ADD_DOCUMENT puts the entity at the end of the
    documents and ADD_CONVERSATION puts it at the front of the
    conversations, whether or not its id is already there.  Hence, in a
    collection whose ids are unique, the ids are still unique after an add
    exactly when the id of the added entity was not present before. *)
Theorem add_inserts_unconditionally now state
    (d : Document.t) (c : Conversation.t) :
  (dataReducer now state (ADD_DOCUMENT d)).(documents)
    = state.(documents) ++ [d]
  ∧ (dataReducer now state (ADD_CONVERSATION c)).(conversations)
    = c :: state.(conversations)
  ∧ (NoDup (document_ids state) →
     NoDup (document_ids (dataReducer now state (ADD_DOCUMENT d)))
     ↔ Document.id d ∉ document_ids state)
  ∧ (NoDup (conversation_ids state) →
     NoDup (conversation_ids
              (dataReducer now state (ADD_CONVERSATION c)))
     ↔ Conversation.id c ∉ conversation_ids state).
Proof.
  split; [reflexivity|]. split; [reflexivity|]. split.
  - intros Hnd. unfold document_ids. simpl. rewrite map_app. simpl.
    rewrite NoDup_app. split.
    + intros (_ & Hdisj & _) Hin. apply (Hdisj _ Hin). left.
    + intros Hnotin. split; [exact Hnd|]. split.
      * intros x Hx Hx'. apply list_elem_of_singleton in Hx'. subst x.
        exact (Hnotin Hx).
      * apply NoDup_singleton.
  - intros Hnd. unfold conversation_ids. simpl. rewrite NoDup_cons.
    split; [intros [H _]; exact H | intros H; split; assumption].
Qed.

(** Adding a document with a new id to the sample store. *)
Lemma add_inserts_unconditionally_witness :
  NoDup (document_ids
           (dataReducer 2000 Sample.loaded
              (ADD_DOCUMENT
                 (Document.mk "doc-c" "u1" "Memo" Document.audio
                    "2025-01-04T00:00:00Z" "2025-01-04T00:00:00Z")))).
Proof.
  apply (add_inserts_unconditionally 2000 Sample.loaded
           (Document.mk "doc-c" "u1" "Memo" Document.audio
              "2025-01-04T00:00:00Z" "2025-01-04T00:00:00Z")
           Sample.convA).
  - apply (bool_decide_unpack _). vm_compute. exact I.
  - apply (bool_decide_unpack _). vm_compute. exact I.
Defined.

End Add.

(** ** The unauthorized event *)

Section Unauthorized.

(** C5 (counterexample).  A signed-in tab with documents [A, B] and one
    conversation cached receives a 401: the cache is not cleared. *)
Lemma unauthorized_leaves_cache_filled :
  ¬ cache_cleared
      (App.responseRejected (Some 401%Z) Sample.signedIn).(App.data).
Proof. intros [H _]. discriminate H. Qed.

(** C5 (amended).  When a response is rejected with status 401, the token
    and the user are removed from local storage and the unauthorized event
    logs the authentication state out (not authenticated, no user, no
    token); the data store, that is both collections, both last-fetch
    timestamps and everything else in it, is left exactly as it was. *)
Theorem unauthorized_resets_auth_only (app : App.t) :
  let app' := App.responseRejected (Some 401%Z) app in
  app'.(App.data) = app.(App.data)
  ∧ app'.(App.auth).(AuthContext.isAuthenticated) = false
  ∧ app'.(App.auth).(AuthContext.user) = None
  ∧ app'.(App.auth).(AuthContext.token) = None
  ∧ app'.(App.localStorage) !! "token" = None
  ∧ app'.(App.localStorage) !! "user" = None.
Proof.
  simpl. repeat split.
  - rewrite lookup_delete_ne by discriminate. apply lookup_delete_eq.
  - apply lookup_delete_eq.
Qed.

End Unauthorized.

(** ** Staleness *)

Section Staleness.

Implicit Types (now t : Z) (state : DataState) (type : CollectionName).

(** The guard [!lastFetch] also takes the number 0 for "no mark": a
    success handled while the clock reads exactly 0 (the first millisecond
    of 1970) would leave a mark that counts as none. *)
Lemma mark_at_zero_is_stale :
  let s := dataReducer 0 initialState
             (DOCUMENTS_LOADING_SUCCESS [Sample.docA]) in
  lastFetch Documents s = Some 0%Z
  ∧ (1000 - 0 ≤ CACHE_DURATION)%Z
  ∧ isStale 1000 s Documents = true.
Proof. repeat split. discriminate. Qed.

Lemma isStale_unfold now state type :
  isStale now state type
  = match lastFetch type state with
    | None => true
    | Some t => if (t =? 0)%Z then true else (now - t >? CACHE_DURATION)%Z
    end.
Proof.
  unfold isStale, lastFetch.
  destruct type;
    [destruct state.(documentsLastFetch) as [t|]
    |destruct state.(conversationsLastFetch) as [t|]];
    simpl; try reflexivity; destruct (t =? 0)%Z; reflexivity.
Qed.

(** [isStale] on every state, the number 0 in the last-fetch field
    included: it answers true exactly when the field is null or 0, or the
    time elapsed since the mark is strictly greater than CACHE_DURATION
    (180000 ms). *)
Theorem isStale_iff_unmarked_or_expired :
  CACHE_DURATION = 180000%Z
  ∧ (∀ now state type,
       isStale now state type = true
       ↔ lastFetch type state = None
         ∨ lastFetch type state = Some 0%Z
         ∨ ∃ t, lastFetch type state = Some t
                ∧ (now - t > CACHE_DURATION)%Z)
  ∧ (∀ t (t' : Z) state docs convs,
       t ≠ 0%Z →
       let s1 := dataReducer t state (DOCUMENTS_LOADING_SUCCESS docs) in
       let s2 :=
         dataReducer t state (CONVERSATIONS_LOADING_SUCCESS convs) in
       ((t' - t ≤ CACHE_DURATION)%Z →
          isStale t' s1 Documents = false
          ∧ isStale t' s2 Conversations = false)
       ∧ ((t' - t > CACHE_DURATION)%Z →
          isStale t' s1 Documents = true
          ∧ isStale t' s2 Conversations = true)).
Proof.
  split; [reflexivity|]. split.
  - intros now state type. rewrite isStale_unfold.
    destruct (lastFetch type state) as [t|]; [|tauto].
    destruct (Z.eqb_spec t 0) as [->|Hne]; [tauto|].
    rewrite Z.gtb_gt. split.
    + eauto.
    + intros [H|[H|(u & [= ->] & Hu)]]; congruence.
  - intros t t' state docs convs Hne s1 s2.
    assert (H1 : lastFetch Documents s1 = Some t) by reflexivity.
    assert (H2 : lastFetch Conversations s2 = Some t) by reflexivity.
    rewrite !isStale_unfold, H1, H2.
    destruct (Z.eqb_spec t 0) as [|_]; [contradiction|].
    split; intros Hle.
    + assert ((t' - t >? CACHE_DURATION)%Z = false) as ->; [|auto].
      rewrite Z.gtb_ltb. apply Z.ltb_ge. exact Hle.
    + assert ((t' - t >? CACHE_DURATION)%Z = true) as ->; [|auto].
      apply Z.gtb_gt. exact Hle.
Qed.

(** The sample store, marked at 1000, on and just past the boundary. *)
Lemma isStale_iff_unmarked_or_expired_witness :
  (isStale 181000 Sample.loaded Documents = false
   ∧ isStale 181000 Sample.loaded Conversations = false)
  ∧ (isStale 181001 Sample.loaded Documents = true
     ∧ isStale 181001 Sample.loaded Conversations = true).
Proof.
  destruct isStale_iff_unmarked_or_expired as (_ & _ & H).
  pose proof
    (H 1000%Z 181000%Z
       (dataReducer 1000 initialState
          (DOCUMENTS_LOADING_SUCCESS [Sample.docA; Sample.docB]))
       [Sample.docA; Sample.docB] [Sample.convA]) as Hfresh.
  pose proof
    (H 1000%Z 181001%Z
       (dataReducer 1000 initialState
          (DOCUMENTS_LOADING_SUCCESS [Sample.docA; Sample.docB]))
       [Sample.docA; Sample.docB] [Sample.convA]) as Hold.
  split.
  - apply Hfresh; [discriminate | vm_compute; discriminate].
  - apply Hold; [discriminate | reflexivity].
Defined.



End Staleness.

(** ** The Gmail context *)

Section Gmail.

Import GmailContext.

(** The optional second argument: were [setConnectionStatus] called with
    [connected = false] and an address (no caller does so), the address
    would be kept in [connectedEmail]. *)
Lemma disconnect_with_address_keeps_it :
  (setConnectionStatus 2000 false (Some "old@b.c") Sample.inbox)
    .(connectedEmail) ≠ None.
Proof. discriminate. Qed.

(** [setConnectionStatus] with [connected = false] and any second
    argument: the email state is cleared, and [connectedEmail] becomes the
    address passed, null when that argument is left out or empty. *)
Lemma disconnect_clears_emails (now : Z) (email : option string)
    (s : GmailState) :
  let s' := setConnectionStatus now false email s in
  s'.(emails) = []
  ∧ s'.(totalEmails) = 0%Z
  ∧ s'.(unreadCount) = 0%Z
  ∧ s'.(emailsLoaded) = false
  ∧ s'.(isConnected) = false
  ∧ s'.(connectedEmail) = Js.or_null email
  ∧ (email = None ∨ email = Some "" ↔ s'.(connectedEmail) = None).
Proof.
  simpl. repeat split.
  - intros [->| ->]; reflexivity.
  - destruct email as [[|a e]|]; simpl; [auto | discriminate | auto].
Qed.

(** C10. If [unreadCount] is not negative, it is not negative after
    [updateEmail], whatever the update: an update that marks an email as
    read takes one off and stops at zero, one that marks it unread adds
    one, and one that says nothing about [is_read] leaves the count. *)
Theorem updateEmail_keeps_unread_nonnegative (emailId : string)
    (updates : Js.object) (s : GmailState) :
  (0 ≤ s.(unreadCount))%Z →
  (0 ≤ (updateEmail emailId updates s).(unreadCount))%Z
  ∧ (Js.truthy (Js.get updates "is_read") = true →
     (updateEmail emailId updates s).(unreadCount)
     = Z.max 0 (s.(unreadCount) - 1)).
Proof.
  intros Hnn. simpl. split.
  - destruct (decide (Js.get updates "is_read" ≠ Js.undefined));
      [destruct (Js.truthy _)|]; lia.
  - intros Htruthy.
    destruct (decide (Js.get updates "is_read" ≠ Js.undefined)) as [_|Hu].
    + rewrite Htruthy. reflexivity.
    + apply dec_stable in Hu. rewrite Hu in Htruthy. discriminate.
Qed.

(** Marking the only unread email as read twice: the count stops at 0. *)
Lemma updateEmail_keeps_unread_nonnegative_witness :
  let read := updateEmail "m1" {[ "is_read" := Js.boolean true ]} in
  (0 ≤ (read (read Sample.inbox)).(unreadCount))%Z
  ∧ (read (read Sample.inbox)).(unreadCount)
    = Z.max 0 ((read Sample.inbox).(unreadCount) - 1).
Proof.
  intros read.
  destruct (updateEmail_keeps_unread_nonnegative "m1"
              {[ "is_read" := Js.boolean true ]} (read Sample.inbox))
    as [Hnn Hclamp].
  - vm_compute. discriminate.
  - split; [exact Hnn | apply Hclamp; vm_compute; reflexivity].
Defined.

(** C9. For every Gmail state, [setConnectionStatus(false)] (the call with
    [connected = false]; the address argument is left out, as in every call
    of the application) clears the email state together: [emails] becomes
    the empty list, [totalEmails] and [unreadCount] become 0, [emailsLoaded]
    becomes false and [connectedEmail] becomes null. *)
Theorem disconnect_clears_email_state (now : Z) (s : GmailState) :
  let s' := setConnectionStatus now false None s in
  s'.(emails) = []
  ∧ s'.(totalEmails) = 0%Z
  ∧ s'.(unreadCount) = 0%Z
  ∧ s'.(emailsLoaded) = false
  ∧ s'.(connectedEmail) = None
  ∧ s'.(isConnected) = false.
Proof. simpl. repeat split. Qed.

End Gmail.

(** ** More about the reducer *)

Section ReducerMore.

Implicit Types (now : Z) (state : DataState) (action : DataAction).

(** X1. The two collections do not interfere: an action on the documents
    and an action on the conversations, handled at any clock readings, lead
    to the same store in either order. *)
Theorem collections_commute (ta tb : Z) state (a b : DataAction) :
  on_documents a = true → on_conversations b = true →
  dataReducer tb (dataReducer ta state a) b
  = dataReducer ta (dataReducer tb state b) a.
Proof.
  destruct a; intros Ha; try discriminate Ha;
    destruct b; intros Hb; try discriminate Hb; reflexivity.
Qed.

(** A replaced document list and a deleted conversation, in both orders. *)
Lemma collections_commute_witness :
  dataReducer 7 (dataReducer 5 Sample.loaded
                   (DOCUMENTS_LOADING_SUCCESS [Sample.docB]))
    (DELETE_CONVERSATION "conv-a")
  = dataReducer 5 (dataReducer 7 Sample.loaded
                     (DELETE_CONVERSATION "conv-a"))
      (DOCUMENTS_LOADING_SUCCESS [Sample.docB]).
Proof.
  exact (collections_commute 5 7 Sample.loaded
           (DOCUMENTS_LOADING_SUCCESS [Sample.docB])
           (DELETE_CONVERSATION "conv-a") eq_refl eq_refl).
Defined.

(** X2. In a store whose statistics are consistent, an action on the
    documents leaves everything that belongs to the conversations as it was
    (list, loading flag, mark, error, initialised flag and the cached
    count), and an action on the conversations leaves everything that
    belongs to the documents as it was. *)
Theorem actions_stay_in_their_collection now state action :
  stats_consistent state →
  (on_documents action = true →
     conversations_part (dataReducer now state action)
     = conversations_part state)
  ∧ (on_conversations action = true →
     documents_part (dataReducer now state action) = documents_part state).
Proof.
  unfold stats_consistent. intros Hs.
  split; destruct action; intros H; try discriminate H;
    unfold conversations_part, documents_part; simpl;
    rewrite ?Hs; reflexivity.
Qed.

(** Replacing the conversations of the sample store leaves its documents
    and their counts alone. *)
Lemma actions_stay_in_their_collection_witness :
  documents_part
    (dataReducer 9 Sample.loaded (CONVERSATIONS_LOADING_SUCCESS []))
  = documents_part Sample.loaded.
Proof.
  exact (proj2 (actions_stay_in_their_collection 9 Sample.loaded
                  (CONVERSATIONS_LOADING_SUCCESS []) eq_refl) eq_refl).
Defined.

Lemma map_replace_ids {A : Type} (key : A → string) (x : A) (l : list A) :
  map key (map (λ y, if decide (key y = key x) then x else y) l)
  = map key l.
Proof.
  induction l as [|y l IH]; simpl; [reflexivity|].
  rewrite IH. destruct (decide (key y = key x)) as [->|_]; reflexivity.
Qed.

Lemma map_replace_hit {A : Type} (key : A → string) (x : A) (l : list A) :
  ∀ y, y ∈ map (λ y, if decide (key y = key x) then x else y) l →
       key y = key x → y = x.
Proof.
  intros y Hy Hk. apply list_elem_of_fmap in Hy as (z & -> & _).
  destruct (decide (key z = key x)) as [_|Hne]; [reflexivity|].
  contradiction.
Qed.

Lemma map_replace_miss {A : Type} (key : A → string) (x : A) (l : list A) :
  ∀ i y, l !! i = Some y → key y ≠ key x →
         map (λ y, if decide (key y = key x) then x else y) l !! i = Some y.
Proof.
  intros i y Hi Hne. rewrite list_lookup_fmap, Hi. simpl.
  destruct (decide (key y = key x)); [contradiction | reflexivity].
Qed.

(** X3. UPDATE_DOCUMENT and UPDATE_CONVERSATION keep the sequence of ids
    of their collection (so its length, its order and the uniqueness of its
    ids); afterwards every entity that carries the id of the payload is the
    payload, and every entity with another id is where and what it was. *)
Theorem update_replaces_in_place now state
    (d : Document.t) (c : Conversation.t) :
  let s1 := dataReducer now state (UPDATE_DOCUMENT d) in
  let s2 := dataReducer now state (UPDATE_CONVERSATION c) in
  (document_ids s1 = document_ids state
   ∧ (∀ x, x ∈ s1.(documents) → Document.id x = Document.id d → x = d)
   ∧ (∀ i x, state.(documents) !! i = Some x →
        Document.id x ≠ Document.id d → s1.(documents) !! i = Some x))
  ∧ (conversation_ids s2 = conversation_ids state
     ∧ (∀ x, x ∈ s2.(conversations) →
          Conversation.id x = Conversation.id c → x = c)
     ∧ (∀ i x, state.(conversations) !! i = Some x →
          Conversation.id x ≠ Conversation.id c →
          s2.(conversations) !! i = Some x)).
Proof.
  simpl. split; (split; [|split]).
  - apply (map_replace_ids Document.id).
  - apply (map_replace_hit Document.id).
  - apply (map_replace_miss Document.id).
  - apply (map_replace_ids Conversation.id).
  - apply (map_replace_hit Conversation.id).
  - apply (map_replace_miss Conversation.id).
Qed.

Lemma NoDup_map_filter {A : Type} (key : A → string) (P : A → Prop)
    `{∀ x, Decision (P x)} (l : list A) :
  NoDup (map key l) → NoDup (map key (filter P l)).
Proof.
  induction l as [|y l IH]; simpl; [auto|].
  rewrite NoDup_cons. intros [Hy Hl]. rewrite filter_cons.
  destruct (decide (P y)); [|auto].
  simpl. apply NoDup_cons. split; [|auto].
  intros Hin. apply Hy.
  apply list_elem_of_fmap in Hin as (z & -> & Hz).
  apply list_elem_of_filter in Hz as [_ Hz].
  apply list_elem_of_fmap. eauto.
Qed.

(** X4. After DELETE_DOCUMENT (DELETE_CONVERSATION) no entity of the
    collection carries the deleted id, whatever its type and however often
    the id occurred; exactly the entities with another id remain; and ids
    that were unique stay unique. *)
Theorem delete_removes_every_match now state (x : string) :
  let s1 := dataReducer now state (DELETE_DOCUMENT x) in
  let s2 := dataReducer now state (DELETE_CONVERSATION x) in
  ((x ∉ document_ids s1)
   ∧ (∀ d, d ∈ s1.(documents)
           ↔ d ∈ state.(documents) ∧ Document.id d ≠ x)
   ∧ (NoDup (document_ids state) → NoDup (document_ids s1)))
  ∧ ((x ∉ conversation_ids s2)
     ∧ (∀ c, c ∈ s2.(conversations)
             ↔ c ∈ state.(conversations) ∧ Conversation.id c ≠ x)
     ∧ (NoDup (conversation_ids state) → NoDup (conversation_ids s2))).
Proof.
  simpl. unfold document_ids, conversation_ids. simpl.
  split; (split; [|split]).
  - intros Hin. apply list_elem_of_fmap in Hin as (d & -> & Hd).
    apply list_elem_of_filter in Hd as [Hne _]. congruence.
  - intros d. rewrite list_elem_of_filter. tauto.
  - apply NoDup_map_filter.
  - intros Hin. apply list_elem_of_fmap in Hin as (d & -> & Hd).
    apply list_elem_of_filter in Hd as [Hne _]. congruence.
  - intros d. rewrite list_elem_of_filter. tauto.
  - apply NoDup_map_filter.
Qed.

Lemma filter_all {A : Type} (P : A → Prop) `{∀ x, Decision (P x)}
    (l : list A) :
  (∀ x, x ∈ l → P x) → filter P l = l.
Proof.
  induction l as [|y l IH]; intros Hall; [reflexivity|].
  rewrite filter_cons. destruct (decide (P y)) as [_|Hn].
  - f_equal. apply IH. intros x Hx. apply Hall. right. exact Hx.
  - exfalso. apply Hn, Hall. left.
Qed.

Lemma map_replace_absent {A : Type} (key : A → string) (x : A)
    (l : list A) :
  key x ∉ map key l →
  map (λ y, if decide (key y = key x) then x else y) l = l.
Proof.
  induction l as [|y l IH]; simpl; intros Hn; [reflexivity|].
  rewrite not_elem_of_cons in Hn. destruct Hn as [Hne Hn].
  destruct (decide (key y = key x)); [congruence|]. f_equal. auto.
Qed.

Lemma filter_other_ids {A : Type} (key : A → string) (x : string)
    (l : list A) :
  x ∉ map key l → filter (λ y, key y ≠ x) l = l.
Proof.
  intros Hn. apply filter_all. intros y Hy Heq. apply Hn.
  apply list_elem_of_fmap. eauto.
Qed.

(** X5. In a store whose statistics are consistent, an update or a delete
    that names an id which is not in the collection changes nothing at all:
    the whole store is returned as it was. *)
Theorem absent_id_is_a_no_op now state
    (d : Document.t) (c : Conversation.t) (x : string) :
  stats_consistent state →
  (Document.id d ∉ document_ids state →
     dataReducer now state (UPDATE_DOCUMENT d) = state)
  ∧ (x ∉ document_ids state →
     dataReducer now state (DELETE_DOCUMENT x) = state)
  ∧ (Conversation.id c ∉ conversation_ids state →
     dataReducer now state (UPDATE_CONVERSATION c) = state)
  ∧ (x ∉ conversation_ids state →
     dataReducer now state (DELETE_CONVERSATION x) = state).
Proof.
  unfold stats_consistent, document_ids, conversation_ids. intros Hs.
  assert (Hc : state.(stats).(totalConversations)
               = length state.(conversations)) by (rewrite Hs; reflexivity).
  split; [|split; [|split]]; intros Hn; simpl.
  - rewrite (map_replace_absent Document.id d _ Hn), Hc, <- Hs.
    destruct state; reflexivity.
  - rewrite (filter_other_ids Document.id x _ Hn), Hc, <- Hs.
    destruct state; reflexivity.
  - rewrite (map_replace_absent Conversation.id c _ Hn).
    destruct state; reflexivity.
  - rewrite (filter_other_ids Conversation.id x _ Hn), <- Hs.
    destruct state; reflexivity.
Qed.

(** Deleting an unknown document id from the sample store. *)
Lemma absent_id_is_a_no_op_witness :
  dataReducer 9 Sample.loaded (DELETE_DOCUMENT "doc-z") = Sample.loaded.
Proof.
  apply (absent_id_is_a_no_op 9 Sample.loaded Sample.docA Sample.convA
           "doc-z" eq_refl).
  apply (bool_decide_unpack _). vm_compute. exact I.
Defined.

Lemma filter_app_fresh {A : Type} (key : A → string) (x : A)
    (l : list A) :
  key x ∉ map key l →
  filter (λ y, key y ≠ key x) (l ++ [x]) = l.
Proof.
  intros Hn. rewrite filter_app, (filter_other_ids key _ _ Hn).
  rewrite filter_cons. destruct (decide (key x ≠ key x)); [congruence|].
  apply app_nil_r.
Qed.

(** X6. Adding an entity whose id is new and deleting that id again gives
    back the store that was there before, provided its statistics were
    consistent: an optimistic add can be undone by its id. *)
Theorem add_then_delete_restores (t1 t2 : Z) state
    (d : Document.t) (c : Conversation.t) :
  stats_consistent state →
  (Document.id d ∉ document_ids state →
     dataReducer t2 (dataReducer t1 state (ADD_DOCUMENT d))
       (DELETE_DOCUMENT (Document.id d)) = state)
  ∧ (Conversation.id c ∉ conversation_ids state →
     dataReducer t2 (dataReducer t1 state (ADD_CONVERSATION c))
       (DELETE_CONVERSATION (Conversation.id c)) = state).
Proof.
  unfold stats_consistent, document_ids, conversation_ids. intros Hs.
  assert (Hc : state.(stats).(totalConversations)
               = length state.(conversations)) by (rewrite Hs; reflexivity).
  split; intros Hn; simpl.
  - rewrite (filter_app_fresh Document.id d _ Hn), Hc, <- Hs.
    destruct state; reflexivity.
  - rewrite filter_cons.
    destruct (decide (Conversation.id c ≠ Conversation.id c));
      [congruence|].
    rewrite (filter_other_ids Conversation.id _ _ Hn), <- Hs.
    destruct state; reflexivity.
Qed.

(** A new conversation pushed to the sample store and removed again. *)
Lemma add_then_delete_restores_witness :
  dataReducer 8
    (dataReducer 7 Sample.loaded
       (ADD_CONVERSATION
          (Conversation.mk "conv-b" "u1" "Hiring" "2025-02-01T00:00:00Z"
             "2025-02-01T00:00:00Z" 0 None None)))
    (DELETE_CONVERSATION "conv-b")
  = Sample.loaded.
Proof.
  apply (add_then_delete_restores 7 8 Sample.loaded Sample.docA
           (Conversation.mk "conv-b" "u1" "Hiring" "2025-02-01T00:00:00Z"
              "2025-02-01T00:00:00Z" 0 None None) eq_refl).
  apply (bool_decide_unpack _). vm_compute. exact I.
Defined.

End ReducerMore.

(** ** More about staleness and the loads *)

Section LoadMore.

Implicit Types (now doneAt : Z) (state store : DataState) (force : bool).

Lemma isStale_mono (now later : Z) state (type : CollectionName) :
  (now ≤ later)%Z →
  isStale now state type = true → isStale later state type = true.
Proof.
  intros Hle. rewrite !isStale_unfold.
  destruct (lastFetch type state) as [t|]; [|auto].
  destruct (t =? 0)%Z; [auto|].
  rewrite !Z.gtb_gt. lia.
Qed.

(** X8. Staleness only grows with time: a collection that is stale at one
    clock reading is stale at every later one, until a load succeeds. *)
Theorem isStale_lasts (now later : Z) state (type : CollectionName) :
  (now ≤ later)%Z →
  isStale now state type = true → isStale later state type = true.
Proof. apply isStale_mono. Qed.

(** The sample store, marked at 1000, four and five minutes later. *)
Lemma isStale_lasts_witness :
  isStale 301000 Sample.loaded Documents = true.
Proof.
  exact (isStale_lasts 241000 301000 Sample.loaded Documents
           ltac:(discriminate) eq_refl).
Defined.

(** X9. FORCE_REFRESH_DOCUMENTS (FORCE_REFRESH_CONVERSATIONS) invalidates
    the collection without touching its contents: afterwards [isStale] is
    true at every clock reading, the list is what it was, and an unforced
    load made by a render of that store reaches the Fetcher unless a load
    is already flagged. *)
Theorem force_refresh_invalidates (t now : Z) state docsResult convsResult :
  let s1 := dataReducer t state FORCE_REFRESH_DOCUMENTS in
  let s2 := dataReducer t state FORCE_REFRESH_CONVERSATIONS in
  (isStale now s1 Documents = true
   ∧ s1.(documents) = state.(documents)
   ∧ (state.(documentsLoading) = false →
      fetcherCalls Documents (loadDocuments now s1 false docsResult) = 1))
  ∧ (isStale now s2 Conversations = true
     ∧ s2.(conversations) = state.(conversations)
     ∧ (state.(conversationsLoading) = false →
        fetcherCalls Conversations
          (loadConversations now s2 false convsResult) = 1)).
Proof.
  cbv zeta.
  split; (split; [reflexivity|]; split; [reflexivity|]); intros Hl.
  - unfold loadDocuments.
    edestruct (loadDocuments_begin_awaits now
                 (dataReducer t state FORCE_REFRESH_DOCUMENTS) false)
      as [line ->]; [exact Hl | reflexivity |].
    rewrite fetcherCalls_app, loadDocuments_resume_no_fetch. reflexivity.
  - unfold loadConversations.
    edestruct (loadConversations_begin_awaits now
                 (dataReducer t state FORCE_REFRESH_CONVERSATIONS) false)
      as [line ->]; [exact Hl | reflexivity |].
    rewrite fetcherCalls_app, loadConversations_resume_no_fetch.
    reflexivity.
Qed.

(** X10. The cache gate needs a non-empty list: a load of a collection that
    is empty reaches the Fetcher whenever no load is flagged, however fresh
    the mark is and without [force].  So a collection that is empty on the
    server is fetched again by every load. *)
Theorem empty_collection_is_always_fetched now state force
    docsResult convsResult :
  (state.(documents) = [] → state.(documentsLoading) = false →
     fetcherCalls Documents (loadDocuments now state force docsResult) = 1)
  ∧ (state.(conversations) = [] → state.(conversationsLoading) = false →
     fetcherCalls Conversations
       (loadConversations now state force convsResult) = 1).
Proof.
  split; intros He Hl.
  - unfold loadDocuments.
    edestruct (loadDocuments_begin_awaits now state force) as [line ->];
      [exact Hl | rewrite He; simpl; apply andb_false_r |].
    rewrite fetcherCalls_app, loadDocuments_resume_no_fetch. reflexivity.
  - unfold loadConversations.
    edestruct (loadConversations_begin_awaits now state force)
      as [line ->];
      [exact Hl | rewrite He; simpl; apply andb_false_r |].
    rewrite fetcherCalls_app, loadConversations_resume_no_fetch.
    reflexivity.
Qed.

(** A fresh store whose documents were fetched as the empty list. *)
Lemma empty_collection_is_always_fetched_witness :
  fetcherCalls Documents
    (loadDocuments 2000
       (dataReducer 1000 initialState (DOCUMENTS_LOADING_SUCCESS []))
       false Sample.itemsOk) = 1.
Proof.
  exact (proj1 (empty_collection_is_always_fetched 2000
                  (dataReducer 1000 initialState
                     (DOCUMENTS_LOADING_SUCCESS []))
                  false Sample.itemsOk Sample.conversationsOk)
           eq_refl eq_refl).
Defined.

Lemma loadDocuments_dispatches_own now state force result :
  Forall (λ a, on_documents a = true)
    (dispatched (loadDocuments now state force result)).
Proof.
  unfold loadDocuments, loadDocuments_begin.
  destruct state.(documentsLoading); [constructor|].
  destruct (negb force && negb (isStale now state Documents)
            && (0 <? length state.(documents))); [constructor|].
  destruct result as [[[] [d|] e]|m]; simpl; repeat constructor.
Qed.

Lemma loadConversations_dispatches_own now state force result :
  Forall (λ a, on_conversations a = true)
    (dispatched (loadConversations now state force result)).
Proof.
  unfold loadConversations, loadConversations_begin.
  destruct state.(conversationsLoading); [constructor|].
  destruct (negb force && negb (isStale now state Conversations)
            && (0 <? length state.(conversations))); [constructor|].
  destruct result as [[[] [d|] e]|m]; simpl; repeat constructor.
Qed.

Lemma reduce_documents_side now (actions : list DataAction) : ∀ store,
  Forall (λ a, on_documents a = true) actions →
  conversations_part (reduce now actions store) = conversations_part store.
Proof.
  unfold reduce.
  induction actions as [|a actions IH]; intros store Hall; [reflexivity|].
  apply Forall_cons in Hall as [Ha Hall]. simpl.
  rewrite (IH _ Hall).
  destruct a; try discriminate Ha; reflexivity.
Qed.

Lemma reduce_conversations_side now (actions : list DataAction) :
  ∀ store,
  stats_consistent store →
  Forall (λ a, on_conversations a = true) actions →
  documents_part (reduce now actions store) = documents_part store.
Proof.
  unfold reduce.
  induction actions as [|a actions IH]; intros store Hs Hall;
    [reflexivity|].
  apply Forall_cons in Hall as [Ha Hall]. simpl.
  rewrite (IH _ (dataReducer_consistent now store a Hs) Hall).
  unfold stats_consistent in Hs.
  destruct a; try discriminate Ha; unfold documents_part; simpl;
    rewrite ?Hs; reflexivity.
Qed.

(** X11. A load only writes to its own collection.  Whatever a call of
    [loadDocuments] does, with whatever outcome, the conversations, their
    flag, mark, error and count in the store are what they were; and, in a
    store with consistent statistics, whatever [loadConversations] does
    leaves the documents, their flag, mark, error and counts alone. *)
Theorem load_writes_its_own_collection now doneAt state store force
    docsResult convsResult :
  stats_consistent store →
  conversations_part
    (after doneAt (loadDocuments now state force docsResult) store)
  = conversations_part store
  ∧ documents_part
      (after doneAt (loadConversations now state force convsResult) store)
    = documents_part store.
Proof.
  intros Hs. split.
  - apply reduce_documents_side, loadDocuments_dispatches_own.
  - apply reduce_conversations_side;
      [exact Hs | apply loadConversations_dispatches_own].
Qed.

(** A failing conversations refresh on the sample store. *)
Lemma load_writes_its_own_collection_witness :
  documents_part
    (after 400000
       (loadConversations 400000 Sample.loaded true
          Sample.conversationsFailed) Sample.loaded)
  = documents_part Sample.loaded.
Proof.
  exact (proj2 (load_writes_its_own_collection 400000 400000 Sample.loaded
                  Sample.loaded true Sample.itemsOk
                  Sample.conversationsFailed eq_refl)).
Defined.

Lemma count_of_type_app ty (l k : list Document.t) :
  count_of_type ty (l ++ k) = count_of_type ty l + count_of_type ty k.
Proof. unfold count_of_type. rewrite filter_app. apply length_app. Qed.

Lemma count_of_type_pure ty ty' (l : list Document.t) :
  Forall (λ d, Document.document_type d = ty') l →
  count_of_type ty l = if decide (ty = ty') then length l else 0.
Proof.
  unfold count_of_type. induction 1 as [|d l Hd _ IH]; simpl.
  - destruct (decide (ty = ty')); reflexivity.
  - rewrite filter_cons, Hd.
    destruct (decide (ty' = ty)) as [<-|Hne].
    + simpl. rewrite IH. destruct (decide (ty' = ty')); [|congruence].
      reflexivity.
    + rewrite IH. destruct (decide (ty = ty')); [congruence|reflexivity].
Qed.

(** X12. When the three fetched lists hold the types they are named after
    (as the Fetcher builds them), the statistics after a successful load
    count each list: [totalDocuments], [totalNotes] and [totalAudio] are
    the lengths of the fetched documents, notes and audio, and [totalItems]
    is their sum. *)
Theorem loaded_stats_count_the_lists now doneAt state store force r items :
  sorted_by_type items →
  Service.success r = true → Service.data r = Some items →
  fetcherCalls Documents
    (loadDocuments now state force (Service.resolved r)) = 1 →
  let store' :=
    after doneAt (loadDocuments now state force (Service.resolved r))
      store in
  store'.(stats).(totalDocuments) = length (Service.documents items)
  ∧ store'.(stats).(totalNotes) = length (Service.notes items)
  ∧ store'.(stats).(totalAudio) = length (Service.audio items)
  ∧ store'.(stats).(totalItems)
    = length (Service.documents items) + length (Service.notes items)
      + length (Service.audio items).
Proof.
  intros (Hp & Hn & Ha) Hok Hdata Hcall store'. subst store'.
  destruct (loadDocuments_fetching _ _ _ _ Hcall) as [line ->].
  unfold after. rewrite dispatched_app. simpl. rewrite Hok, Hdata. simpl.
  rewrite !count_of_type_app.
  rewrite !(count_of_type_pure _ _ _ Hp), !(count_of_type_pure _ _ _ Hn),
    !(count_of_type_pure _ _ _ Ha).
  rewrite !length_app. simpl. repeat split; lia.
Qed.

(** The first load of a fresh provider: one PDF and one note. *)
Lemma loaded_stats_count_the_lists_witness :
  let store' :=
    after 5000 (loadDocuments 4000 initialState false Sample.itemsOk)
      initialState in
  store'.(stats).(totalDocuments) = 1
  ∧ store'.(stats).(totalNotes) = 1
  ∧ store'.(stats).(totalAudio) = 0
  ∧ store'.(stats).(totalItems) = 1 + 1 + 0.
Proof.
  apply (loaded_stats_count_the_lists 4000 5000 initialState initialState
           false Sample.itemsResponse Sample.items).
  - split; [|split]; repeat constructor.
  - reflexivity.
  - reflexivity.
  - reflexivity.
Defined.

End LoadMore.

(** ** Loads started together, and the mounted provider *)

Section Together.

Implicit Types (now : Z) (state store : DataState).

Lemma fetcherCalls_continued c (s : Started) (resume : list Effect) :
  fetcherCalls c resume = 0 → fetcherCalls c (continued s resume) = 0.
Proof. destruct s; auto. Qed.

(** The Fetcher calls of two loads started together are those made before
    the two [await]s. *)
Lemma fetcherCalls_together c (d k : Started) docsResult convsResult
    (documentsFirst : bool) :
  fetcherCalls c
    (together d k (loadDocuments_resume docsResult)
       (loadConversations_resume convsResult) documentsFirst)
  = fetcherCalls c (begun d) + fetcherCalls c (begun k).
Proof.
  unfold together. rewrite !fetcherCalls_app.
  destruct documentsFirst; rewrite fetcherCalls_app;
    rewrite !fetcherCalls_continued
      by (apply loadDocuments_resume_no_fetch
          || apply loadConversations_resume_no_fetch);
    lia.
Qed.

(** X13. [refreshAll] called by a render that sees no load flagged invokes
    each of the two Fetchers exactly once, whatever the freshness of the
    collections, and whichever of the two settles first; called by a
    render that sees both loads flagged it does nothing. *)
Theorem refreshAll_fetches_both now state docsResult convsResult :
  (∀ first,
     state.(documentsLoading) = false →
     state.(conversationsLoading) = false →
     fetcherCalls Documents
       (refreshAll now state docsResult convsResult first) = 1
     ∧ fetcherCalls Conversations
         (refreshAll now state docsResult convsResult first) = 1)
  ∧ (∀ first,
       state.(documentsLoading) = true →
       state.(conversationsLoading) = true →
       refreshAll now state docsResult convsResult first = []).
Proof.
  split.
  - intros first Hd Hc. unfold refreshAll.
    rewrite !fetcherCalls_together.
    unfold loadDocuments_begin, loadConversations_begin.
    rewrite Hd, Hc. split; reflexivity.
  - intros first Hd Hc. unfold refreshAll, together, loadDocuments_begin,
      loadConversations_begin.
    rewrite Hd, Hc. destruct first; reflexivity.
Qed.

(** X14. Coming back to the tab refreshes what is stale and nothing else:
    the visibility handler invokes the Fetcher of a collection exactly when
    the tab is visible, the collection is stale at the handler's check and
    no load of it is flagged in the render's state.  It never forces a
    load, and does nothing while the tab is hidden. *)
Theorem visibility_refreshes_what_is_stale (hidden : bool) (r : Readings)
    state docsResult convsResult (first : bool) :
  forward r →
  let trace :=
    handleVisibilityChange hidden r state docsResult convsResult first in
  fetcherCalls Documents trace
  = (if negb hidden && isStale r.(checkDocuments) state Documents
        && negb state.(documentsLoading) then 1 else 0)
  ∧ fetcherCalls Conversations trace
    = (if negb hidden && isStale r.(checkConversations) state Conversations
          && negb state.(conversationsLoading) then 1 else 0)
  ∧ (hidden = true → trace = []).
Proof.
  intros [Hd Hc] trace. subst trace. unfold handleVisibilityChange.
  destruct hidden; simpl; [repeat split|].
  rewrite !fetcherCalls_together.
  assert (HD : ∀ c,
    fetcherCalls c
      (begun (if isStale r.(checkDocuments) state Documents
              then loadDocuments_begin r.(inLoadDocuments) state false
              else Returned []))
    = if isStale r.(checkDocuments) state Documents
         && negb state.(documentsLoading)
      then (if decide (Documents = c) then 1 else 0) else 0).
  { intros c. destruct (isStale r.(checkDocuments) state Documents) eqn:Hs;
      [|reflexivity].
    apply (isStale_mono _ _ _ _ Hd) in Hs.
    unfold loadDocuments_begin. rewrite Hs.
    destruct state.(documentsLoading); simpl; [reflexivity|].
    destruct (decide (Documents = c)); reflexivity. }
  assert (HC : ∀ c,
    fetcherCalls c
      (begun (if isStale r.(checkConversations) state Conversations
              then loadConversations_begin r.(inLoadConversations) state
                     false
              else Returned []))
    = if isStale r.(checkConversations) state Conversations
         && negb state.(conversationsLoading)
      then (if decide (Conversations = c) then 1 else 0) else 0).
  { intros c.
    destruct (isStale r.(checkConversations) state Conversations) eqn:Hs;
      [|reflexivity].
    apply (isStale_mono _ _ _ _ Hc) in Hs.
    unfold loadConversations_begin. rewrite Hs.
    destruct state.(conversationsLoading); simpl; [reflexivity|].
    destruct (decide (Conversations = c)); reflexivity. }
  rewrite !HD, !HC. simpl.
  split; [|split; [|discriminate]].
  - destruct (isStale r.(checkDocuments) state Documents
              && negb state.(documentsLoading)),
      (isStale r.(checkConversations) state Conversations
       && negb state.(conversationsLoading)); reflexivity.
  - destruct (isStale r.(checkDocuments) state Documents
              && negb state.(documentsLoading)),
      (isStale r.(checkConversations) state Conversations
       && negb state.(conversationsLoading)); reflexivity.
Qed.

(** Four minutes after the fetch of the sample store, the user returns:
    both collections are refreshed. *)
Lemma visibility_refreshes_what_is_stale_witness :
  let trace :=
    handleVisibilityChange false
      (mkReadings 241000 241001 241001 241002) Sample.loaded
      Sample.itemsOk Sample.conversationsOk true in
  fetcherCalls Documents trace = 1
  ∧ fetcherCalls Conversations trace = 1
  ∧ (false = true → trace = []).
Proof.
  apply (visibility_refreshes_what_is_stale false
           (mkReadings 241000 241001 241001 241002) Sample.loaded
           Sample.itemsOk Sample.conversationsOk true).
  split; simpl; lia.
Defined.

(** X15. In a provider whose calls are always made by a render of the
    latest store, starting from the mount: at every moment each collection
    has at most one Fetcher call outstanding, and one is outstanding
    exactly while the loading flag of the collection is set. *)
Theorem rendered_provider_tracks_fetches (events : list (Z * Event)) :
  let p := run_rendered events mount in
  inFlight Documents p ≤ 1
  ∧ inFlight Conversations p ≤ 1
  ∧ (inFlight Documents p = 1 ↔ p.(store).(documentsLoading) = true)
  ∧ (inFlight Conversations p = 1
     ↔ p.(store).(conversationsLoading) = true).
Proof.
  cbv zeta.
  assert (Hm : flags_track_fetches mount) by (split; reflexivity).
  destruct (rendered_calls_keep_one_fetch events mount Documents Hm)
    as [[Hd Hc] Hle1].
  destruct (rendered_calls_keep_one_fetch events mount Conversations Hm)
    as [_ Hle2].
  split; [exact Hle1|]. split; [exact Hle2|].
  simpl. rewrite Hd, Hc.
  split;
    [destruct (run_rendered events mount).(store).(documentsLoading)
    |destruct (run_rendered events mount).(store).(conversationsLoading)];
    split; congruence.
Qed.

End Together.

(** ** Conversations through the service *)

Section ThroughTheService.

Lemma or_string_nonempty (s : option string) (d : string) :
  d ≠ "" → Js.or_string s d ≠ "".
Proof.
  intros Hd. destruct s as [x|]; simpl; [|exact Hd].
  destruct (String.eqb_spec x ""); congruence.
Qed.

(** X16. A conversations load whose request fails records the server's
    [detail] as the error, or else the message of the HTTP error, or else
    "Failed to fetch conversations"; a response without a body records
    "Failed to load conversations".  The recorded error is never the empty
    string, and the cached conversations and their mark stay as they
    were. *)
Theorem conversation_fetch_failure_is_reported (now doneAt : Z)
    (state store : DataState) (force : bool)
    (detail message : option string) :
  let failing :=
    Service.resolved
      (ConversationService.getConversations (Http.failed detail message)) in
  let empty :=
    Service.resolved (ConversationService.getConversations (Http.ok None)) in
  fetcherCalls Conversations (loadConversations now state force failing)
  = 1 →
  let s1 := after doneAt (loadConversations now state force failing) store in
  let s2 := after doneAt (loadConversations now state force empty) store in
  s1.(conversationsError)
  = Some (Js.or_string detail
            (Js.or_string message "Failed to fetch conversations"))
  ∧ s1.(conversationsError) ≠ Some ""
  ∧ s2.(conversationsError) = Some "Failed to load conversations"
  ∧ s1.(conversations) = store.(conversations)
  ∧ s1.(conversationsLastFetch) = store.(conversationsLastFetch)
  ∧ s2.(conversations) = store.(conversations)
  ∧ s1.(conversationsLoading) = false.
Proof.
  intros failing empty Hcall s1 s2. subst s1 s2.
  assert (Hcall' : fetcherCalls Conversations
                     (loadConversations now state force empty) = 1).
  { revert Hcall. unfold loadConversations.
    destruct (loadConversations_begin now state force); [auto|].
    rewrite !fetcherCalls_app, !loadConversations_resume_no_fetch. auto. }
  destruct (loadConversations_fetching _ _ _ _ Hcall) as [line ->].
  destruct (loadConversations_fetching _ _ _ _ Hcall') as [line' ->].
  unfold after. rewrite !dispatched_app. simpl.
  assert (Hd : "Failed to fetch conversations" ≠ "") by discriminate.
  pose proof (or_string_nonempty detail _
                (or_string_nonempty message _ Hd)) as Hne.
  destruct (String.eqb_spec
              (Js.or_string detail
                 (Js.or_string message "Failed to fetch conversations"))
              "") as [Heq|_]; [contradiction|].
  split; [reflexivity|]. split; [congruence|repeat split].
Qed.

(** A refresh of the sample store that meets a network error. *)
Lemma conversation_fetch_failure_is_reported_witness :
  (after 400000
     (loadConversations 400000 Sample.loaded true
        (Service.resolved
           (ConversationService.getConversations
              (Http.failed None (Some "Network Error")))))
     Sample.loaded).(conversationsError)
  = Some "Network Error".
Proof.
  exact (proj1 (conversation_fetch_failure_is_reported 400000 400000
                  Sample.loaded Sample.loaded true None
                  (Some "Network Error") eq_refl)).
Defined.

End ThroughTheService.

(** ** More about the Gmail context *)

Section GmailMore.

Import GmailContext.

Implicit Types (now : Z) (s : GmailState).


(** X18. [checkConnection] never touches the cached emails: the list, the
    two counts and the loaded flag are the same before and after, also when
    the server answers that the account is not connected.  A check that
    fails shows the account as disconnected and leaves [lastCheck] as it
    was; a check that succeeds records the server's answer and the time. *)
Theorem checkConnection_keeps_the_emails now (force : bool) result s :
  let s' := (checkConnection now force result s).2 in
  (s'.(emails) = s.(emails) ∧ s'.(totalEmails) = s.(totalEmails)
   ∧ s'.(unreadCount) = s.(unreadCount)
   ∧ s'.(emailsLoaded) = s.(emailsLoaded))
  ∧ (∀ message,
       (checkConnection now force result s).1 = true →
       failure "Connection check failed" result = Some message →
       s'.(isConnected) = false ∧ s'.(connectedEmail) = None
       ∧ s'.(lastCheck) = s.(lastCheck))
  ∧ (∀ r status,
       (checkConnection now force result s).1 = true →
       result = Service.resolved r → Service.success r = true →
       Service.data r = Some status →
       s'.(isConnected) = status.(GmailService.connected)
       ∧ s'.(connectedEmail)
         = Js.or_null status.(GmailService.email_address)
       ∧ s'.(lastCheck) = now).
Proof.
  unfold checkConnection.
  destruct (negb force && (now - s.(lastCheck) <? 5 * 60 * 1000)%Z
            && (0 <? s.(lastCheck))%Z); simpl.
  - split; [repeat split|]. split; intros; discriminate.
  - split; [destruct result as [[[] [d|] e]|m]; repeat split|].
    split.
    + intros message _.
      destruct result as [[[] [d|] e]|m]; simpl; intros [= <-];
        repeat split.
    + intros r status _ -> Hok Hdata. rewrite Hok, Hdata. repeat split.
Qed.


(** X20. For a page number whose offset [(page - 1) * 20] is a safe
    integer (so that the product is exact in JavaScript too), a forced
    [loadEmails(page)] of a connected account asks for 20 emails from that
    offset; in the query string the offset is left out on page 1, where it
    is 0.  When the request succeeds, the cached emails and the two counts
    are replaced by the response and the emails count as loaded. *)
Theorem loadEmails_pages (page : Z) response s :
  safe_integer page → safe_integer ((page - 1) * 20) →
  s.(isConnected) = true →
  let params := GmailService.mkEmailsParams (Some 20%Z)
                  (Some ((page - 1) * 20)%Z) in
  (loadEmails page true response s).1 = Some params
  ∧ GmailService.getEmails_query (Some params)
    = (if decide (page = 1%Z) then [("limit", 20%Z)]
       else [("limit", 20%Z); ("offset", ((page - 1) * 20)%Z)])
  ∧ (∀ r d,
       response = Service.resolved r → Service.success r = true →
       Service.data r = Some d →
       let s' := (loadEmails page true response s).2 in
       s'.(emails) = d.(GmailService.emails)
       ∧ s'.(totalEmails) = d.(GmailService.total)
       ∧ s'.(unreadCount) = d.(GmailService.unread_count)
       ∧ s'.(emailsLoaded) = true).
Proof.
  intros _ _ Hc params. subst params. unfold loadEmails.
  rewrite Hc, andb_false_r. simpl. split; [reflexivity|]. split.
  - unfold GmailService.getEmails_query. simpl.
    destruct (decide (page = 1%Z)) as [->|Hne]; [reflexivity|].
    destruct (Z.eqb_spec ((page - 1) * 20) 0); [lia|reflexivity].
  - intros r d -> Hok Hdata. rewrite Hok, Hdata. repeat split.
Qed.

(** The second page of the sample inbox. *)
Lemma loadEmails_pages_witness :
  (loadEmails 2 true (Service.rejected "timeout") Sample.inbox).1
  = Some (GmailService.mkEmailsParams (Some 20%Z) (Some 20%Z)).
Proof.
  assert (H2 : safe_integer 2) by (unfold safe_integer; lia).
  assert (H20 : safe_integer ((2 - 1) * 20)) by (unfold safe_integer; lia).
  exact (proj1 (loadEmails_pages 2 (Service.rejected "timeout")
                  Sample.inbox H2 H20 eq_refl)).
Defined.

Lemma get_spread (e updates : Js.object) (k : string) :
  Js.get (Js.spread e updates) k
  = match updates !! k with
    | Some v => v
    | None => Js.get e k
    end.
Proof.
  unfold Js.get, Js.spread. rewrite lookup_union.
  destruct (updates !! k), (e !! k); reflexivity.
Qed.

(** X21. [updateEmail] changes the cached emails in place: the list keeps
    its length; an email with another id is where and what it was; an email
    with the given id has every property of [updates] and keeps its other
    properties; if no email has the id, the list is unchanged.
    [totalEmails] is never changed. *)
Theorem updateEmail_changes_matches_in_place (emailId : string)
    (updates : Js.object) s :
  let s' := updateEmail emailId updates s in
  length s'.(emails) = length s.(emails)
  ∧ (∀ i e, s.(emails) !! i = Some e → Js.get e "id" ≠ Js.str emailId →
       s'.(emails) !! i = Some e)
  ∧ (∀ i e, s.(emails) !! i = Some e → Js.get e "id" = Js.str emailId →
       ∃ e', s'.(emails) !! i = Some e'
             ∧ ∀ k, Js.get e' k
                    = match updates !! k with
                      | Some v => v
                      | None => Js.get e k
                      end)
  ∧ (Js.str emailId ∉ email_ids s → s'.(emails) = s.(emails))
  ∧ s'.(totalEmails) = s.(totalEmails).
Proof.
  simpl. split; [apply length_map|]. split; [|split; [|split]].
  - intros i e Hi Hne. rewrite list_lookup_fmap, Hi. simpl.
    destruct (decide (Js.get e "id" = Js.str emailId));
      [contradiction | reflexivity].
  - intros i e Hi Heq. rewrite list_lookup_fmap, Hi. simpl.
    destruct (decide (Js.get e "id" = Js.str emailId)); [|contradiction].
    eexists. split; [reflexivity|]. intros k. apply get_spread.
  - unfold email_ids. induction s.(emails) as [|e l IH]; simpl;
      [reflexivity|].
    rewrite not_elem_of_cons. intros [Hne Hl].
    destruct (decide (Js.get e "id" = Js.str emailId)); [congruence|].
    f_equal. auto.
  - reflexivity.
Qed.

End GmailMore.

(** ** The inbox page and the Gmail context *)

Section InboxPage.

Import GmailContext.

Implicit Types (s : GmailState) (email : Inbox.Email).

Lemma updated_match_has (emailId key : string) (v : Js.value) s :
  key ≠ "id" →
  ∀ e', e' ∈ (updateEmail emailId {[ key := v ]} s).(emails) →
        Js.get e' "id" = Js.str emailId → Js.get e' key = v.
Proof.
  intros Hk e' Hin Hid. simpl in Hin.
  apply list_elem_of_fmap in Hin as (e & -> & _).
  destruct (decide (Js.get e "id" = Js.str emailId)) as [_|Hne];
    [|contradiction].
  rewrite get_spread, lookup_singleton_eq. reflexivity.
Qed.

Lemma marking_read_takes_one_off (emailId : string) s :
  (updateEmail emailId {[ "is_read" := Js.boolean true ]} s).(unreadCount)
  = Z.max 0 (s.(unreadCount) - 1).
Proof. reflexivity. Qed.

(** X22. Starring or unstarring an email never changes the unread count,
    the total or the number of cached emails, whatever the server answers;
    when the server confirms, every cached email with that id carries the
    star state the server returned. *)
Theorem star_toggle_keeps_the_counts email result s :
  let s' := Inbox.handleToggleStar email result s in
  s'.(unreadCount) = s.(unreadCount)
  ∧ s'.(totalEmails) = s.(totalEmails)
  ∧ length s'.(emails) = length s.(emails)
  ∧ (∀ r d e',
       result = Service.resolved r → Service.success r = true →
       Service.data r = Some d →
       e' ∈ s'.(emails) → Js.get e' "id" = Js.str email.(Inbox.id) →
       Js.get e' "is_starred" = Js.boolean d.(Inbox.starred)).
Proof.
  unfold Inbox.handleToggleStar.
  split; [|split; [|split]].
  - destruct result as [[[] [d|] e]|m]; reflexivity.
  - destruct result as [[[] [d|] e]|m]; reflexivity.
  - destruct result as [[[] [d|] e]|m]; simpl; try reflexivity.
    apply length_map.
  - intros r d e' -> Hok Hdata. rewrite Hok, Hdata.
    apply updated_match_has. discriminate.
Qed.

(** X23. Opening an email that the page holds as read changes nothing in
    the Gmail context, and neither does an email whose detail cannot be
    fetched.  Opening an unread email whose detail arrives takes one off
    the unread count, not below zero, leaves the total alone, and marks
    every cached email with that id as read. *)
Theorem opening_marks_read_once email result s :
  (email.(Inbox.is_read) = true → Inbox.handleEmailClick email result s = s)
  ∧ (∀ message, failure "" result = Some message →
       Inbox.handleEmailClick email result s = s)
  ∧ (∀ r d,
       email.(Inbox.is_read) = false →
       result = Service.resolved r → Service.success r = true →
       Service.data r = Some d →
       let s' := Inbox.handleEmailClick email result s in
       s'.(unreadCount) = Z.max 0 (s.(unreadCount) - 1)
       ∧ s'.(totalEmails) = s.(totalEmails)
       ∧ ∀ e', e' ∈ s'.(emails) →
               Js.get e' "id" = Js.str email.(Inbox.id) →
               Js.get e' "is_read" = Js.boolean true).
Proof.
  unfold Inbox.handleEmailClick. split; [|split].
  - intros ->. destruct result as [[[] [d|] e]|m]; reflexivity.
  - intros message.
    destruct result as [[[] [d|] e]|m]; simpl; intros [= <-];
      reflexivity.
  - intros r d -> -> Hok Hdata. rewrite Hok, Hdata. simpl.
    split; [reflexivity|]. split; [reflexivity|].
    apply (updated_match_has email.(Inbox.id) "is_read").
    discriminate.
Qed.

(** X24. A socket message of type "new_email" puts its email first in the
    cache and adds one to the total and to the unread count; any other
    message is ignored.  When the unread count was not negative, opening
    an unread email after such a push brings the unread count back to what
    it was before the push. *)
Theorem pushed_email_counts_as_unread (msg : Inbox.SocketMessage) s :
  (msg.(Inbox.type) = Js.str "new_email" →
     let s' := Inbox.handleWebSocketMessage msg s in
     s'.(emails) = msg.(Inbox.data) :: s.(emails)
     ∧ s'.(totalEmails) = (s.(totalEmails) + 1)%Z
     ∧ s'.(unreadCount) = (s.(unreadCount) + 1)%Z
     ∧ ∀ email r d,
         (0 ≤ s.(unreadCount))%Z → email.(Inbox.is_read) = false →
         Service.success r = true → Service.data r = Some d →
         (Inbox.handleEmailClick email (Service.resolved r) s')
           .(unreadCount) = s.(unreadCount))
  ∧ (msg.(Inbox.type) ≠ Js.str "new_email" →
     Inbox.handleWebSocketMessage msg s = s).
Proof.
  unfold Inbox.handleWebSocketMessage. split.
  - intros Ht. destruct (decide (msg.(Inbox.type) = Js.str "new_email"));
      [|contradiction].
    simpl. repeat split.
    intros email r d Hnn Hread Hok Hdata.
    unfold Inbox.handleEmailClick. rewrite Hok, Hdata, Hread.
    cbn [negb]. rewrite marking_read_takes_one_off. simpl. lia.
  - intros Ht. destruct (decide (msg.(Inbox.type) = Js.str "new_email"));
      [contradiction | reflexivity].
Qed.


End InboxPage.

(** ** The documents page *)

Section DocumentsPageCache.

(** X26. [confirmDelete] changes the cache only after the server has
    confirmed: with a confirmed delete, no cached document carries the id
    of the selected document any more; when the call fails, is rejected or
    nothing is selected, the store is left as it was.  The service function
    called is the one for the type of the selected document, and no Fetcher
    is ever invoked. *)
Theorem confirmDelete_follows_the_server
    (selection : option Document.t) result (now : Z) (store : DataState) :
  let call := (DocumentsPage.confirmDelete selection result).1 in
  let store' :=
    after now (DocumentsPage.confirmDelete selection result).2 store in
  (∀ c, fetcherCalls c (DocumentsPage.confirmDelete selection result).2
        = 0)
  ∧ (selection = None → call = None ∧ store' = store)
  ∧ (∀ d r, selection = Some d → result = Service.resolved r →
       Service.success r = true →
       (Document.id d ∉ document_ids store')
       ∧ (∀ x, x ∈ store'.(documents)
               ↔ x ∈ store.(documents) ∧ Document.id x ≠ Document.id d))
  ∧ (∀ d r, selection = Some d → result = Service.resolved r →
       Service.success r = false → store' = store)
  ∧ (∀ d message, selection = Some d →
       result = Service.rejected message → store' = store)
  ∧ (∀ d, selection = Some d →
       call = Some match Document.document_type d with
                   | Document.pdf =>
                       DocumentsPage.deleteDocument (Document.id d)
                   | Document.note =>
                       DocumentsPage.deleteNote (Document.id d)
                   | Document.audio =>
                       DocumentsPage.deleteAudio (Document.id d)
                   end).
Proof.
  cbv zeta. unfold DocumentsPage.confirmDelete.
  split; [|split; [|split; [|split; [|split]]]].
  - intros c. destruct selection as [d|]; [|reflexivity].
    destruct result as [[[] dt e]|m]; reflexivity.
  - intros ->. split; reflexivity.
  - intros d r -> -> Hok. simpl. rewrite Hok. unfold document_ids. simpl.
    split.
    + intros Hin. apply list_elem_of_fmap in Hin as (y & Hy & Hin).
      apply list_elem_of_filter in Hin as [Hne _]. congruence.
    + intros x. rewrite list_elem_of_filter. tauto.
  - intros d r -> -> Hok. simpl. rewrite Hok. reflexivity.
  - intros d message -> ->. reflexivity.
  - intros d ->. reflexivity.
Qed.

End DocumentsPageCache.

(** ** Sessions: the interceptors, authService and AuthProvider *)

Section Sessions.

(** X27. A response rejected with status 401 has exactly the effect of
    [logout()]: the same local storage, the same auth state, the same data
    store.  A response rejected with any other status, or without a
    response at all, changes nothing. *)
Theorem unauthorized_is_logout (app : App.t) (status : option Z) :
  App.responseRejected (Some 401%Z) app = AuthProvider.logout app
  ∧ (status ≠ Some 401%Z → App.responseRejected status app = app).
Proof.
  split; [reflexivity|].
  intros Hne. unfold App.responseRejected.
  destruct (decide (status = Some 401%Z)); [contradiction | reflexivity].
Qed.

(** X28. The request interceptor follows local storage: with a non-empty
    token stored, the request carries "Bearer <token>" as Authorization;
    with no token, or an empty one, the headers are passed on unchanged;
    no other header is ever touched.  After a 401, and after a logout,
    [authService.isAuthenticated()] is false and requests go out without a
    token added. *)
Theorem bearer_token_follows_storage
    (localStorage headers : gmap string string) (app : App.t) :
  (∀ token, localStorage !! "token" = Some token → token ≠ "" →
     Http.requestInterceptor localStorage headers !! "Authorization"
     = Some ("Bearer " +:+ token))
  ∧ (AuthService.isAuthenticated localStorage = false →
     Http.requestInterceptor localStorage headers = headers)
  ∧ (∀ name, name ≠ "Authorization" →
       Http.requestInterceptor localStorage headers !! name
       = headers !! name)
  ∧ (let after401 :=
       (App.responseRejected (Some 401%Z) app).(App.localStorage) in
     AuthService.isAuthenticated after401 = false
     ∧ Http.requestInterceptor after401 headers = headers)
  ∧ (let afterLogout := (AuthProvider.logout app).(App.localStorage) in
     AuthService.isAuthenticated afterLogout = false
     ∧ Http.requestInterceptor afterLogout headers = headers).
Proof.
  assert (Hgone : ∀ ls : gmap string string,
            delete "user" (delete "token" ls) !! "token" = None).
  { intros ls. rewrite lookup_delete_ne by discriminate.
    apply lookup_delete_eq. }
  unfold Http.requestInterceptor, AuthService.isAuthenticated.
  split; [|split; [|split; [|split]]].
  - intros token -> Hne.
    destruct (String.eqb_spec token ""); [contradiction|].
    apply lookup_insert_eq.
  - destruct (localStorage !! "token") as [token|]; [|reflexivity].
    destruct (String.eqb token ""); [reflexivity | discriminate].
  - intros name Hne.
    destruct (localStorage !! "token") as [token|]; [|reflexivity].
    destruct (String.eqb token ""); [reflexivity|].
    apply lookup_insert_ne. congruence.
  - simpl. rewrite Hgone. split; reflexivity.
  - simpl. unfold AuthService.logout. rewrite Hgone. split; reflexivity.
Qed.

(** X29. What [login] and [signup] return agrees with the auth state they
    leave: [success] is the new [isAuthenticated], [error] is the new
    [error], and [loading] is over.  A failure leaves the session logged
    out, also when it was logged in before, with an error message that is
    never empty. *)
Theorem login_result_matches_state (state : AuthContext.AuthState)
    loginResult signupResult :
  let agrees (run : list AuthContext.AuthAction * AuthProvider.Returned) :=
    let state' := AuthProvider.reduce run.1 state in
    run.2.(AuthProvider.success) = state'.(AuthContext.isAuthenticated)
    ∧ run.2.(AuthProvider.error) = state'.(AuthContext.error)
    ∧ state'.(AuthContext.loading) = false
    ∧ (run.2.(AuthProvider.success) = false →
       state'.(AuthContext.user) = None
       ∧ state'.(AuthContext.token) = None
       ∧ ∃ message, run.2.(AuthProvider.error) = Some message
                    ∧ message ≠ "") in
  agrees (AuthProvider.login loginResult)
  ∧ agrees (AuthProvider.signup signupResult loginResult).
Proof.
  cbv zeta.
  assert (Hlogin : ∀ pre,
    let run := AuthProvider.login loginResult in
    let state' := AuthProvider.reduce (pre ++ run.1) state in
    run.2.(AuthProvider.success) = state'.(AuthContext.isAuthenticated)
    ∧ run.2.(AuthProvider.error) = state'.(AuthContext.error)
    ∧ state'.(AuthContext.loading) = false
    ∧ (run.2.(AuthProvider.success) = false →
       state'.(AuthContext.user) = None
       ∧ state'.(AuthContext.token) = None
       ∧ ∃ message, run.2.(AuthProvider.error) = Some message
                    ∧ message ≠ "")).
  { intros pre. cbv zeta. unfold AuthProvider.reduce.
    rewrite foldl_app.
    destruct loginResult as [[[] [d|] e]|m]; simpl;
      (split; [reflexivity|]); (split; [reflexivity|]);
      (split; [reflexivity|]); intros Hf; try discriminate Hf;
      (split; [reflexivity|]); (split; [reflexivity|]);
      eexists; (split; [reflexivity|]);
      try (apply or_string_nonempty); discriminate. }
  split; [exact (Hlogin [])|].
  destruct signupResult as [[[] dt e]|m].
  - exact (Hlogin [AuthContext.LOGIN_START]).
  - simpl. repeat split. eexists. split; [reflexivity|].
    apply or_string_nonempty. discriminate.
  - simpl. repeat split. eexists. split; [reflexivity|]. discriminate.
Qed.

End Sessions.
